(** * Validation of scraped product records (traderjoes/Validation.py)

    A shallow embedding of the [Validation] class and of the batch loop of
    the script, followed by the properties of the rule set.

    Python values are embedded as the data [json.load] produces: [None],
    booleans, integers, strings, lists and dictionaries with string keys.
    JSON reals are left out of the value type.  A string is a sequence of
    code points below 256.  A dictionary is an association list read through
    [dict_get] (first binding of a key); an association list therefore always
    denotes one Python dictionary, its keys being [dict_keys].

    Python exceptions are explicit: a function that can raise returns an
    [outcome].  The set of seen product identifiers, a global of the script,
    is threaded explicitly. *)

From Stdlib Require Import ZArith String Ascii List Bool Lia Sorted.
From stdpp Require Import base decidable countable gmap strings list pretty.
Import ListNotations.

Set Warnings "-register-all".

Local Open Scope Z_scope.
Local Open Scope string_scope.
Local Open Scope list_scope.

(** ** Python values *)

Inductive value : Type :=
| VNone
| VBool (b : bool)
| VInt (n : Z)
| VStr (s : string)
| VList (items : list value)
| VDict (entries : list (string * value)).

(** A product record is a dictionary: the entries of a [VDict]. *)
Abbreviation record := (list (string * value)).

Inductive exc : Type :=
| TypeError
| AttributeError
| KeyError.

Inductive outcome (A : Type) : Type :=
| Ret (a : A)
| Raise (e : exc).
Arguments Ret {A} a.
Arguments Raise {A} e.

Definition bind {A B : Type} (m : outcome A) (k : A -> outcome B) : outcome B :=
  match m with
  | Ret a => k a
  | Raise e => Raise e
  end.

#[global] Instance outcome_ret : MRet outcome := fun A a => Ret a.
#[global] Instance outcome_bind : MBind outcome := fun A B k m => bind m k.

(** What a check hands back: a bare boolean, or a tuple of a boolean and a
    message (a string, or the list of strings of the schema check). *)
Inductive reason : Type :=
| Text (s : string)
| Texts (l : list string).

Inductive retval : Type :=
| RBool (b : bool)
| RPair (ok : bool) (why : reason).

(** ** Dictionary access *)

Fixpoint dict_get (d : record) (k : string) : option value :=
  match d with
  | [] => None
  | (k', v) :: d' => if String.eqb k' k then Some v else dict_get d' k
  end.

(** [k in d] *)
Definition has_key (d : record) (k : string) : bool :=
  match dict_get d k with Some _ => true | None => false end.

(** [d.get(k)]: the value, [None] when the key is absent. *)
Definition get (d : record) (k : string) : value :=
  match dict_get d k with Some v => v | None => VNone end.

(** The keys of the dictionary, in insertion order. *)
Fixpoint dict_keys_from (seen : list string) (d : record) : list string :=
  match d with
  | [] => []
  | (k, _) :: d' =>
      if existsb (String.eqb k) seen then dict_keys_from seen d'
      else k :: dict_keys_from (k :: seen) d'
  end.

Definition dict_keys (d : record) : list string := dict_keys_from [] d.

(** ** Types, [isinstance] and [type(x)] *)

Inductive pytype : Type :=
| TNoneType | TBool | TInt | TStr | TList | TDict.

Definition type_of (v : value) : pytype :=
  match v with
  | VNone => TNoneType
  | VBool _ => TBool
  | VInt _ => TInt
  | VStr _ => TStr
  | VList _ => TList
  | VDict _ => TDict
  end.

Definition pytype_eqb (a b : pytype) : bool :=
  match a, b with
  | TNoneType, TNoneType | TBool, TBool | TInt, TInt
  | TStr, TStr | TList, TList | TDict, TDict => true
  | _, _ => false
  end.

(** [issubclass]: [bool] is a subclass of [int]. *)
Definition subclass (a b : pytype) : bool :=
  pytype_eqb a b ||
  match a, b with
  | TBool, TInt => true
  | _, _ => false
  end.

(** The second argument of [isinstance]: a class or a tuple of classes. *)
Inductive classinfo : Type :=
| Class (t : pytype)
| Classes (ts : list pytype).

Definition isinstance (v : value) (c : classinfo) : bool :=
  match c with
  | Class t => subclass (type_of v) t
  | Classes ts => existsb (subclass (type_of v)) ts
  end.

Definition class_name (t : pytype) : string :=
  match t with
  | TNoneType => "NoneType"
  | TBool => "bool"
  | TInt => "int"
  | TStr => "str"
  | TList => "list"
  | TDict => "dict"
  end.

(** [str(cls)], as an f-string prints a class. *)
Definition class_str (t : pytype) : string :=
  "<class '" ++ class_name t ++ "'>".

Fixpoint join (sep : string) (l : list string) : string :=
  match l with
  | [] => ""
  | [x] => x
  | x :: l' => x ++ sep ++ join sep l'
  end.

(** [str] of a tuple of classes: a one-element tuple prints a trailing comma. *)
Definition classinfo_str (c : classinfo) : string :=
  match c with
  | Class t => class_str t
  | Classes [] => "()"
  | Classes [t] => "(" ++ class_str t ++ ",)"
  | Classes ts => "(" ++ join ", " (map class_str ts) ++ ")"
  end.

(** ** Truthiness, iteration, hashing and printing *)

Definition truthy (v : value) : bool :=
  match v with
  | VNone => false
  | VBool b => b
  | VInt n => negb (n =? 0)%Z
  | VStr s => negb (String.eqb s "")
  | VList l => match l with [] => false | _ => true end
  | VDict d => match d with [] => false | _ => true end
  end.

Fixpoint chars (s : string) : list value :=
  match s with
  | EmptyString => []
  | String c s' => VStr (String c EmptyString) :: chars s'
  end.

(** [iter(v)]: the elements a [for] loop or a generator sees. *)
Definition py_iter (v : value) : outcome (list value) :=
  match v with
  | VList l => Ret l
  | VStr s => Ret (chars s)
  | VDict d => Ret (map VStr (dict_keys d))
  | VNone | VBool _ | VInt _ => Raise TypeError
  end.

(** The hashable values: [None], booleans, integers and strings.  Lists and
    dictionaries are unhashable. *)
Inductive atom : Type :=
| ANone
| ABool (b : bool)
| AInt (n : Z)
| AStr (s : string).

Definition as_atom (v : value) : option atom :=
  match v with
  | VNone => Some ANone
  | VBool b => Some (ABool b)
  | VInt n => Some (AInt n)
  | VStr s => Some (AStr s)
  | VList _ | VDict _ => None
  end.

(** The key under which a set stores a hashable value: [True == 1] and
    [False == 0] with equal hashes, so a boolean and the integer it equals
    are one element. *)
Inductive hkey : Type :=
| KNone
| KNum (n : Z)
| KStr (s : string).

Definition atom_key (a : atom) : hkey :=
  match a with
  | ANone => KNone
  | ABool b => KNum (if b then 1 else 0)
  | AInt n => KNum n
  | AStr s => KStr s
  end.

(** [str(a)], as an f-string prints the value. *)
Definition atom_str (a : atom) : string :=
  match a with
  | ANone => "None"
  | ABool true => "True"
  | ABool false => "False"
  | AInt n => pretty n
  | AStr s => s
  end.

#[global] Instance hkey_eq_dec : EqDecision hkey.
Proof. solve_decision. Defined.

#[global] Instance hkey_countable : Countable hkey.
Proof.
  refine (inj_countable'
    (fun k => match k with
              | KNone => inl (inl tt)
              | KNum n => inl (inr n)
              | KStr s => inr s
              end)
    (fun x => match x with
              | inl (inl _) => KNone
              | inl (inr n) => KNum n
              | inr s => KStr s
              end) _).
  intros []; reflexivity.
Defined.

(** A Python set of hashable values. *)
Abbreviation pyset := (gset hkey).

(** [a in s] and [s.add(a)] for a hashable [a]. *)
Definition set_mem (s : pyset) (a : atom) : bool := bool_decide (atom_key a ∈ s).
Definition set_add (s : pyset) (a : atom) : pyset := {[ atom_key a ]} ∪ s.

(** Hashing a value: [TypeError: unhashable type] on a list or a dictionary. *)
Definition hashable (v : value) : outcome atom :=
  match as_atom v with
  | Some a => Ret a
  | None => Raise TypeError
  end.

(** ** Comparison *)

(** [a == b]; it never raises on these values. *)
Fixpoint py_eq (a b : value) {struct a} : bool :=
  match a, b with
  | VNone, VNone => true
  | VBool x, VBool y => Bool.eqb x y
  | VBool x, VInt n => ((if x then 1 else 0) =? n)%Z
  | VInt n, VBool y => (n =? (if y then 1 else 0))%Z
  | VInt n, VInt m => (n =? m)%Z
  | VStr s, VStr t => String.eqb s t
  | VList l1, VList l2 =>
      (fix items_eq (l1 l2 : list value) {struct l1} : bool :=
         match l1, l2 with
         | [], [] => true
         | x :: l1', y :: l2' => py_eq x y && items_eq l1' l2'
         | _, _ => false
         end) l1 l2
  | VDict d1, VDict d2 =>
      (length (dict_keys d1) =? length (dict_keys d2))%nat &&
      (fix entries_eq (seen : list string) (d : list (string * value)) {struct d} : bool :=
         match d with
         | [] => true
         | (k, v) :: d' =>
             if existsb (String.eqb k) seen then entries_eq seen d'
             else match dict_get d2 k with
                  | Some w => py_eq v w
                  | None => false
                  end && entries_eq (k :: seen) d'
         end) [] d1
  | _, _ => false
  end.

(** [a <= b]: numbers by value, strings by code points, lists by their first
    differing items; [TypeError] for every other pair of types. *)
Fixpoint py_le (a b : value) {struct a} : outcome bool :=
  match a, b with
  | VBool x, VBool y => Ret ((if x then 1 else 0) <=? (if y then 1 else 0))%Z
  | VBool x, VInt n => Ret ((if x then 1 else 0) <=? n)%Z
  | VInt n, VBool y => Ret (n <=? (if y then 1 else 0))%Z
  | VInt n, VInt m => Ret (n <=? m)%Z
  | VStr s, VStr t => Ret (String.leb s t)
  | VList l1, VList l2 =>
      (fix items_le (l1 l2 : list value) {struct l1} : outcome bool :=
         match l1, l2 with
         | [], _ => Ret true
         | _ :: _, [] => Ret false
         | x :: l1', y :: l2' => if py_eq x y then items_le l1' l2' else py_le x y
         end) l1 l2
  | _, _ => Raise TypeError
  end.

(** ** Access to [product_data] *)

Definition is_substring (needle hay : string) : bool :=
  match String.index 0 needle hay with Some _ => true | None => false end.

(** [key in product_data] *)
Definition key_in (key : string) (product_data : value) : outcome bool :=
  match product_data with
  | VDict d => Ret (has_key d key)
  | VList l => Ret (existsb (fun v => py_eq v (VStr key)) l)
  | VStr s => Ret (is_substring key s)
  | VNone | VBool _ | VInt _ => Raise TypeError
  end.

(** [product_data[key]] *)
Definition subscript (product_data : value) (key : string) : outcome value :=
  match product_data with
  | VDict d => match dict_get d key with Some v => Ret v | None => Raise KeyError end
  | _ => Raise TypeError
  end.

(** [product_data.get(key)] *)
Definition dot_get (product_data : value) (key : string) : outcome value :=
  match product_data with
  | VDict d => Ret (get d key)
  | _ => Raise AttributeError
  end.

(** ** The regular expression of the URL check *)

Inductive re_item : Type :=
| Bol                      (* ^ *)
| Lit (c : ascii)          (* a literal character *)
| OptLit (c : ascii)       (* c? *)
| PlusNotSpace             (* \S+ *)
| Eol.                     (* $ *)

(** Whitespace of [\s] on a [str] pattern, among the code points below 256:
    tab to carriage return, the four separators 28 to 31, the space, NEL and
    the no-break space. *)
Definition is_space (c : ascii) : bool :=
  let n := nat_of_ascii c in
  ((9 <=? n) && (n <=? 13) || (28 <=? n) && (n <=? 32) || (n =? 133) || (n =? 160))%nat.

Definition is_newline (c : ascii) : bool := (nat_of_ascii c =? 10)%nat.

(** Backtracking matcher, anchored where it is called; [at_start] tells
    whether no character has been consumed yet. Without the MULTILINE flag
    [^] matches at the start of the string only, and [$] at the end of the
    string or just before a newline that ends it. *)
Fixpoint re_match_here (p : list re_item) (at_start : bool) (s : list ascii) : bool :=
  match p with
  | [] => true
  | Bol :: p' => at_start && re_match_here p' at_start s
  | Lit c :: p' =>
      match s with
      | x :: s' => Ascii.eqb x c && re_match_here p' false s'
      | [] => false
      end
  | OptLit c :: p' =>
      match s with
      | x :: s' => Ascii.eqb x c && re_match_here p' false s'
      | [] => false
      end || re_match_here p' at_start s
  | PlusNotSpace :: p' =>
      (fix plus (s : list ascii) : bool :=
         match s with
         | x :: s' => negb (is_space x) && (plus s' || re_match_here p' false s')
         | [] => false
         end) s
  | Eol :: p' =>
      match s with
      | [] => true
      | [c] => is_newline c
      | _ => false
      end && re_match_here p' at_start s
  end.

(** [re.compile(p).match(s)] is not [None]. *)
Definition re_match (p : list re_item) (s : string) : bool :=
  re_match_here p true (list_ascii_of_string s).

(** [r'^https?://\S+$'] *)
Definition url_pattern : list re_item :=
  [Bol; Lit "h"; Lit "t"; Lit "t"; Lit "p"; OptLit "s";
   Lit ":"; Lit "/"; Lit "/"; PlusNotSpace; Eol]%char.

(** ** The checks of class [Validation] *)

Definition required_keys : list string :=
  ["brand"; "title"; "product_id"; "url"; "retail_price"; "image"; "category"].

(** The loop of [is_valid_product_data], run on a dictionary. *)
Fixpoint all_keys_present (keys : list string) (d : record) : bool :=
  match keys with
  | [] => true
  | key :: keys' => if negb (has_key d key) then false else all_keys_present keys' d
  end.

Definition is_valid_product_data (product_data : value) : retval :=
  match product_data with
  | VDict d => RBool (all_keys_present required_keys d)
  | _ => RBool false
  end.

Definition expected_structure : list (string * classinfo) :=
  [ ("brand", Class TStr);
    ("title", Class TStr);
    ("description", Class TStr);
    ("image", Class TStr);
    ("images", Class TList);
    ("retail_price", Class TStr);
    ("final_price", Class TStr);
    ("url", Class TStr);
    ("product_id", Class TInt);
    ("category", Class TStr);
    ("sales_size", Class TStr);
    ("availability", Class TStr);
    ("Buzzwords", Class TList);
    ("nutrition", Classes [TDict; TNoneType]);
    ("ingredients", Classes [TList; TNoneType]);
    ("country_of_origin", Classes [TStr; TNoneType]) ].

Definition missing_message (key : string) : string :=
  "Missing key '" ++ key ++ "' in product data.".

Definition type_message (key : string) (cls : classinfo) (v : value) : string :=
  "Key '" ++ key ++ "' has incorrect type. Expected type: " ++ classinfo_str cls
  ++ ", Actual type: " ++ class_str (type_of v).

(** One turn of the loop over [expected_structure.items()]. *)
Definition schema_step (product_data : value) (validation_errors : list string)
    (item : string * classinfo) : outcome (list string) :=
  let '(key, cls) := item in
  present ← key_in key product_data;
  if negb present then Ret (validation_errors ++ [missing_message key])
  else
    v ← subscript product_data key;
    if negb (isinstance v cls) then Ret (validation_errors ++ [type_message key cls v])
    else Ret validation_errors.

Fixpoint schema_loop (product_data : value) (items : list (string * classinfo))
    (validation_errors : list string) : outcome (list string) :=
  match items with
  | [] => Ret validation_errors
  | item :: items' =>
      errs ← schema_step product_data validation_errors item;
      schema_loop product_data items' errs
  end.

Definition validate_product_data_schema (product_data : value) : outcome retval :=
  validation_errors ← schema_loop product_data expected_structure [];
  match validation_errors with
  | _ :: _ => Ret (RPair false (Texts validation_errors))
  | [] => Ret (RPair true (Text "Product data schema is valid."))
  end.

Definition is_none (v : value) : bool :=
  match v with VNone => true | _ => false end.

Definition validate_selling_price (product_data : value) : outcome retval :=
  selling_price ← dot_get product_data "selling_price";
  original_price ← dot_get product_data "original_price";
  if negb (is_none selling_price) && negb (is_none original_price) then
    (below ← py_le selling_price original_price;
     if (below : bool) then Ret (RBool true) else Ret (RBool false))
  else Ret (RBool true).

(** [isinstance(img, str) and img.startswith('http')] *)
Definition is_http_string (img : value) : bool :=
  match img with
  | VStr s => String.prefix "http" s
  | _ => false
  end.

Definition images_message : string := "Images list should contain at least one URL".

Definition validate_image_data (product_data : value) : outcome retval :=
  image ← dot_get product_data "image";
  if is_none image then Ret (RPair false (Text "Image key cannot be null"))
  else
    images ← dot_get product_data "images";
    if negb (truthy images) then Ret (RPair false (Text images_message))
    else
      imgs ← py_iter images;
      if negb (existsb is_http_string imgs) then Ret (RPair false (Text images_message))
      else Ret (RPair true (Text "")).

Definition url_message : string :=
  "URL should be in standardized format (e.g., http://example.com)".

Definition validate_url_format (product_data : value) : outcome retval :=
  url ← dot_get product_data "url";
  if negb (is_none url) then
    match url with
    | VStr u =>
        if negb (re_match url_pattern u) then Ret (RPair false (Text url_message))
        else Ret (RPair true (Text ""))
    | _ => Raise TypeError
    end
  else Ret (RPair true (Text "")).

(** The uniqueness check also hands back the set, which [add] mutates. *)
Definition validate_product_id_uniqueness (product_data : value) (product_ids : pyset)
    : outcome retval * pyset :=
  match dot_get product_data "product_id" with
  | Raise e => (Raise e, product_ids)
  | Ret product_id =>
      match hashable product_id with
      | Raise e => (Raise e, product_ids)
      | Ret a =>
          if set_mem product_ids a then
            (Ret (RPair false (Text ("Duplicate product_id: " ++ atom_str a))), product_ids)
          else
            (Ret (RPair true (Text "")), set_add product_ids a)
      end
  end.

(** The loop of [validate_duplicate_images] over the local set. *)
Fixpoint duplicate_loop (images : list value) (unique_images : pyset) : outcome retval :=
  match images with
  | [] => Ret (RPair true (Text ""))
  | image_url :: images' =>
      a ← hashable image_url;
      if set_mem unique_images a then
        Ret (RPair false (Text ("Duplicate image URL: " ++ atom_str a)))
      else duplicate_loop images' (set_add unique_images a)
  end.

Definition validate_duplicate_images (product_data : value) : outcome retval :=
  images ← dot_get product_data "images";
  if truthy images then
    imgs ← py_iter images;
    duplicate_loop imgs ∅
  else Ret (RPair true (Text "")).

(** ** Orchestration *)

(** Truth value of what a check returned: a tuple of two items is true. *)
Definition ret_truthy (r : retval) : bool :=
  match r with
  | RBool b => b
  | RPair _ _ => true
  end.

(** [ok, message = r] *)
Definition unpack (r : retval) : outcome (bool * reason) :=
  match r with
  | RPair ok why => Ret (ok, why)
  | RBool _ => Raise TypeError
  end.

Definition valid_message : string := "Product data is valid".

Definition validate_pdp_data (json_data : value) (product_ids : pyset)
    : outcome retval * pyset :=
  let product_data := json_data in
  if negb (ret_truthy (is_valid_product_data product_data)) then
    (Ret (RPair false (Text "Invalid product data structure")), product_ids)
  else
  match r ← validate_product_data_schema product_data; unpack r with
  | Raise e => (Raise e, product_ids)
  | Ret (false, message) => (Ret (RPair false message), product_ids)
  | Ret (true, _) =>
  match r ← validate_image_data product_data; unpack r with
  | Raise e => (Raise e, product_ids)
  | Ret (false, message) => (Ret (RPair false message), product_ids)
  | Ret (true, _) =>
  match r ← validate_url_format product_data; unpack r with
  | Raise e => (Raise e, product_ids)
  | Ret (false, message) => (Ret (RPair false message), product_ids)
  | Ret (true, _) =>
  let '(res, product_ids') := validate_product_id_uniqueness product_data product_ids in
  match r ← res; unpack r with
  | Raise e => (Raise e, product_ids')
  | Ret (false, id_message) => (Ret (RPair false id_message), product_ids')
  | Ret (true, _) =>
  match r ← validate_duplicate_images product_data; unpack r with
  | Raise e => (Raise e, product_ids')
  | Ret (false, message) => (Ret (RPair false message), product_ids')
  | Ret (true, _) => (Ret (RPair true (Text valid_message)), product_ids')
  end end end end end.

(** ** The batch loop of the script *)

(** [invalid_data_details] holds one entry per rejected record: its index,
    counted from 1, and the message; the text around them is presentation. *)
Fixpoint batch_loop (index : nat) (pdp_list : list value) (product_ids : pyset)
    (invalid_data_details : list (nat * reason))
    : outcome (list (nat * reason)) * pyset :=
  match pdp_list with
  | [] => (Ret invalid_data_details, product_ids)
  | pdp_data :: rest =>
      let '(res, product_ids') := validate_pdp_data pdp_data product_ids in
      match r ← res; unpack r with
      | Raise e => (Raise e, product_ids')
      | Ret (is_valid, message) =>
          batch_loop (S index) rest product_ids'
            (if negb is_valid then invalid_data_details ++ [(index, message)]
             else invalid_data_details)
      end
  end.

Definition run_batch (pdp_list : list value) : outcome (list (nat * reason)) * pyset :=
  batch_loop 1 pdp_list ∅ [].

(** ** Sample records *)

Definition sample (product_id : value) (images : list value) : record :=
  [ ("brand", VStr "Trader Joe's");
    ("title", VStr "Organic Banana");
    ("description", VStr "A banana.");
    ("image", VStr "http://img/1.jpg");
    ("images", VList images);
    ("retail_price", VStr "$0.25");
    ("final_price", VStr "$0.25");
    ("url", VStr "https://www.traderjoes.com/p/1");
    ("product_id", product_id);
    ("category", VStr "Produce");
    ("sales_size", VStr "1 each");
    ("availability", VStr "1");
    ("Buzzwords", VList []);
    ("nutrition", VNone);
    ("ingredients", VNone);
    ("country_of_origin", VNone) ].

Definition good (n : Z) : value := VDict (sample (VInt n) [VStr "http://img/1.jpg"]).

(** * Definitions used by the statements *)

(** The two kinds of violation of one schema field. *)
Definition absent (d : record) (item : string * classinfo) : bool :=
  negb (has_key d (fst item)).

Definition mistyped (d : record) (item : string * classinfo) : bool :=
  has_key d (fst item) && negb (isinstance (get d (fst item)) (snd item)).

Definition violates (d : record) (item : string * classinfo) : bool :=
  absent d item || mistyped d item.

Definition violation_message (d : record) (item : string * classinfo) : string :=
  if absent d item then missing_message (fst item)
  else type_message (fst item) (snd item) (get d (fst item)).

Definition is_bare_bool (r : retval) : Prop := exists b, r = RBool b.
Definition is_pair (r : retval) : Prop := exists ok why, r = RPair ok why.

Definition no_space (body : list ascii) : bool :=
  forallb (fun c => negb (is_space c)) body.

(** What [\S+$] accepts: a non-empty run of non-whitespace characters, then
    the end of the string or one final newline. *)
Definition run_to_end (s : list ascii) : Prop :=
  exists body tail, s = body ++ tail /\ body <> [] /\ no_space body = true /\
    (tail = [] \/ tail = [ascii_of_nat 10]).

Definition newline : string := String (ascii_of_nat 10) EmptyString.

(** The orchestrator reads the record through these keys only. *)
Definition agree_off_prices (d d' : record) : Prop :=
  forall key, key <> "selling_price" -> key <> "original_price" ->
    dict_get d key = dict_get d' key.

(** A record that passes every check of the orchestrator and fails the price
    check. *)
Definition overpriced : record :=
  ("selling_price", VInt 20) :: ("original_price", VInt 10)
    :: sample (VInt 7) [VStr "http://img/7.jpg"].

(** The uniqueness check applied to the records of a batch, in order, on one
    set of seen identifiers. *)
Fixpoint uniqueness_pass (batch : list value) (product_ids : pyset)
    : outcome (list retval) * pyset :=
  match batch with
  | [] => (Ret [], product_ids)
  | product_data :: rest =>
      let '(res, ids') := validate_product_id_uniqueness product_data product_ids in
      match res with
      | Raise e => (Raise e, ids')
      | Ret r =>
          let '(more, ids'') := uniqueness_pass rest ids' in
          (rs ← more; Ret (r :: rs), ids'')
      end
  end.

(** The identifiers met in a batch, added to [product_ids]. *)
Fixpoint seen_after (batch : list record) (product_ids : pyset) : pyset :=
  match batch with
  | [] => product_ids
  | d :: rest =>
      seen_after rest
        (match as_atom (get d "product_id") with
         | Some a => set_add product_ids a
         | None => product_ids
         end)
  end.

Definition uniqueness_result (a : atom) (product_ids : pyset) : retval :=
  if set_mem product_ids a
  then RPair false (Text ("Duplicate product_id: " ++ atom_str a))
  else RPair true (Text "").

Definition hashable_id (d : record) : Prop := as_atom (get d "product_id") <> None.

(** The record at place [i] of [batch] has an identifier equal to that of an
    earlier record. *)
Definition seen_earlier (batch : list record) (i : nat) (d : record) : Prop :=
  exists (j : nat) d', (j < i)%nat /\ batch !! j = Some d' /\
    py_eq (get d' "product_id") (get d "product_id") = true.

Definition with_id (product_id : value) : record := [("product_id", product_id)].

Definition ids_121 : list record := [with_id (VInt 1); with_id (VInt 2); with_id (VInt 1)].

(** A record that satisfies the schema and has no image URL in its list. *)
Definition no_images (n : Z) : value := VDict (sample (VInt n) []).

Definition null_then_keyless : list record :=
  [ [("title", VStr "Apples"); ("product_id", VNone)];
    [("title", VStr "Pears")];
    [("title", VStr "Plums")] ].

Definition two_keyless : list record :=
  [ [("title", VStr "Pears")]; [("title", VStr "Plums")] ].

(** A record that passes the first five checks and whose images list holds,
    after a URL, an entry that is itself a list. *)
Definition nested_images : value :=
  VDict (sample (VInt 1) [VStr "http://img/1.jpg"; VList []]).

(** A record whose images entries are all hashable. *)
Definition hashable_images (json_data : value) : Prop :=
  forall d l, json_data = VDict d -> get d "images" = VList l ->
    Forall (fun v => as_atom v <> None) l.

(** The set keys of the hashable entries of a list, in order. *)
Definition keys_of (l : list value) : list hkey :=
  omap (fun v => atom_key <$> as_atom v) l.

(** Every field of the expected structure is present with a value of its
    expected type. *)
Definition schema_ok (d : record) : bool :=
  forallb (fun item => negb (violates d item)) expected_structure.

(** What the orchestrator answers on a record that passed the presence and
    schema checks, from the images list, the url and the identifier. *)
Definition after_schema (l : list value) (u : string) (a : atom) (product_ids : pyset)
    : outcome retval * pyset :=
  if negb (existsb is_http_string l) then
    (Ret (RPair false (Text "Images list should contain at least one URL")), product_ids)
  else if negb (re_match url_pattern u) then
    (Ret (RPair false
            (Text "URL should be in standardized format (e.g., http://example.com)")),
     product_ids)
  else if set_mem product_ids a then
    (Ret (RPair false (Text ("Duplicate product_id: " ++ atom_str a))), product_ids)
  else
    match duplicate_loop l ∅ with
    | Raise e => (Raise e, set_add product_ids a)
    | Ret (RPair false why) => (Ret (RPair false why), set_add product_ids a)
    | Ret (RPair true _) =>
        (Ret (RPair true (Text "Product data is valid")), set_add product_ids a)
    | Ret (RBool _) => (Raise TypeError, set_add product_ids a)
    end.

(** A record that satisfies the schema and lists the same image twice. *)
Definition twice_imaged : value :=
  VDict (sample (VInt 4) [VStr "http://img/4.jpg"; VStr "http://img/4.jpg"]).

(** A record the orchestrator accepts when no identifier has been seen. *)
Definition valid_alone (d : record) : Prop :=
  exists why ids', validate_pdp_data (VDict d) ∅ = (Ret (RPair true why), ids').

Definition three_valid : list record :=
  [ sample (VInt 1) [VStr "http://img/1.jpg"];
    sample (VInt 2) [VStr "http://img/2.jpg"];
    sample (VBool true) [VStr "http://img/3.jpg"] ].

Definition batch_121 : list value := [good 1; good 2; good 1].

(** A record whose images field is one URL string, not a list. *)
Definition bare_url_images : record :=
  [("image", VStr "http://img/1.jpg"); ("images", VStr "http://img/1.jpg")].

(** The fields the schema names. *)
Definition schema_keys : list string := map fst expected_structure.

(** The Expected Schema in the words of the specification (its section 3),
    over the value kinds of its section 6: an integer and a boolean are
    different kinds, and a sequence of strings holds strings only. It stands
    beside [expected_structure], the table of the code, for comparison. *)
Inductive spec_type : Type :=
| SpecString
| SpecInteger
| SpecStringSequence
| SpecMappingOrNull
| SpecSequenceOrNull
| SpecStringOrNull.

Definition spec_expected_schema : list (string * spec_type) :=
  [ ("brand", SpecString);
    ("title", SpecString);
    ("description", SpecString);
    ("image", SpecString);
    ("images", SpecStringSequence);
    ("retail_price", SpecString);
    ("final_price", SpecString);
    ("url", SpecString);
    ("product_id", SpecInteger);
    ("category", SpecString);
    ("sales_size", SpecString);
    ("availability", SpecString);
    ("Buzzwords", SpecStringSequence);
    ("nutrition", SpecMappingOrNull);
    ("ingredients", SpecSequenceOrNull);
    ("country_of_origin", SpecStringOrNull) ].

Definition spec_is_string (v : value) : bool :=
  match v with VStr _ => true | _ => false end.

Definition spec_has_type (v : value) (t : spec_type) : bool :=
  match t, v with
  | SpecString, VStr _ => true
  | SpecInteger, VInt _ => true
  | SpecStringSequence, VList l => forallb spec_is_string l
  | SpecMappingOrNull, (VDict _ | VNone) => true
  | SpecSequenceOrNull, (VList _ | VNone) => true
  | SpecStringOrNull, (VStr _ | VNone) => true
  | _, _ => false
  end.

(** The fields of a record that are absent or not of the type the
    specification's Expected Schema gives them. *)
Definition spec_violations (d : record) : list string :=
  map fst
    (List.filter
       (fun item : string * spec_type =>
          match dict_get d (fst item) with
          | Some v => negb (spec_has_type v (snd item))
          | None => true
          end)
       spec_expected_schema).

(** A record that has every field, with a number in its images list. *)
Definition number_in_images : record :=
  sample (VInt 1) [VStr "http://img/1.jpg"; VInt 5].

(** A record that has every field, with a boolean product_id. *)
Definition boolean_id : record := sample (VBool true) [VStr "http://img/1.jpg"].

(** A record with a number as brand, a string as nutrition and no other
    field. *)
Definition two_mistyped : record := [("brand", VInt 1); ("nutrition", VStr "none")].

(** * Properties *)

(** Runs the sequencing of [outcome] once its first action is known. *)
Ltac run_bind := unfold mbind, outcome_bind; cbn [bind].

(** ** Structural presence check *)

Lemma all_keys_present_forallb (keys : list string) (d : record) :
  all_keys_present keys d = forallb (has_key d) keys.
Proof.
  induction keys as [|key keys IH]; simpl; [reflexivity|].
  destruct (has_key d key); simpl; [exact IH | reflexivity].
Qed.

(** C8. The structural presence check answers with a bare boolean; it is true
    exactly when the input is a dictionary holding each of the seven keys
    brand, title, product_id, url, retail_price, image and category, and false
    for every other input; two dictionaries with the same keys get the same
    answer, whatever their values are. *)
Theorem is_valid_product_data_presence (product_data : value) :
  required_keys =
    ["brand"; "title"; "product_id"; "url"; "retail_price"; "image"; "category"] /\
  (is_valid_product_data product_data = RBool true \/
   is_valid_product_data product_data = RBool false) /\
  (is_valid_product_data product_data = RBool true <->
   exists d, product_data = VDict d /\
             forall key, In key required_keys -> has_key d key = true) /\
  (forall d d', product_data = VDict d ->
     (forall key, has_key d key = has_key d' key) ->
     is_valid_product_data (VDict d') = is_valid_product_data (VDict d)).
Proof.
  split; [reflexivity|].
  assert (Hiff : is_valid_product_data product_data = RBool true <->
            exists d, product_data = VDict d /\
              forall key, In key required_keys -> has_key d key = true).
  { destruct product_data as [| | | | |d]; cbn [is_valid_product_data];
      try (split; [discriminate | intros (d' & Hd & _); discriminate]).
    rewrite all_keys_present_forallb. split.
    - intros H. exists d. split; [reflexivity|].
      injection H as H. apply (proj1 (forallb_forall _ _)). exact H.
    - intros (d' & Hd & Hall). injection Hd as <-.
      f_equal. apply forallb_forall. exact Hall. }
  split; [|split; [exact Hiff|]].
  - destruct product_data as [| | | | |d]; cbn [is_valid_product_data]; auto.
    destruct (all_keys_present required_keys d); auto.
  - intros d d' _ Hsame. cbn [is_valid_product_data].
    rewrite !all_keys_present_forallb.
    f_equal. generalize required_keys. intros keys.
    induction keys as [|key keys IH]; simpl; [reflexivity|].
    rewrite Hsame, IH. reflexivity.
Qed.

(** ** Schema type check *)

Lemma subscript_present (d : record) (key : string) :
  has_key d key = true -> subscript (VDict d) key = Ret (get d key).
Proof.
  unfold has_key, subscript, get. destruct (dict_get d key); [reflexivity | discriminate].
Qed.

Lemma schema_step_dict (d : record) (errs : list string) (item : string * classinfo) :
  schema_step (VDict d) errs item =
    Ret (errs ++ (if violates d item then [violation_message d item] else [])).
Proof.
  destruct item as [key cls].
  unfold schema_step, violates, violation_message, absent, mistyped.
  cbn [key_in fst snd]. run_bind.
  destruct (has_key d key) eqn:Hk; cbn [negb orb andb].
  - rewrite (subscript_present _ _ Hk). run_bind.
    destruct (isinstance (get d key) cls); cbn [negb]; [|reflexivity].
    rewrite app_nil_r. reflexivity.
  - reflexivity.
Qed.

Lemma schema_loop_dict (d : record) (items : list (string * classinfo))
    (errs : list string) :
  schema_loop (VDict d) items errs =
    Ret (errs ++ map (violation_message d) (List.filter (violates d) items)).
Proof.
  revert errs. induction items as [|item items IH]; intros errs.
  - simpl. rewrite app_nil_r. reflexivity.
  - cbn [schema_loop List.filter]. rewrite schema_step_dict.
    run_bind. rewrite IH.
    destruct (violates d item); cbn [map].
    + rewrite <- app_assoc. reflexivity.
    + rewrite app_nil_r. reflexivity.
Qed.

(** What [isinstance] answers for the six expected types of the table, by
    the kind of the value. *)
Lemma isinstance_by_kind (v : value) :
  (isinstance v (Class TStr) = true <-> exists s, v = VStr s) /\
  (isinstance v (Class TList) = true <-> exists l, v = VList l) /\
  (isinstance v (Class TInt) = true <-> (exists n, v = VInt n) \/ (exists b, v = VBool b)) /\
  (isinstance v (Classes [TDict; TNoneType]) = true <-> v = VNone \/ exists e, v = VDict e) /\
  (isinstance v (Classes [TList; TNoneType]) = true <-> v = VNone \/ exists l, v = VList l) /\
  (isinstance v (Classes [TStr; TNoneType]) = true <-> v = VNone \/ exists s, v = VStr s).
Proof.
  destruct v; cbn; repeat split; intros H; try discriminate H; eauto;
    repeat match goal with
           | H : _ \/ _ |- _ => destruct H as [H | H]
           | H : exists _, _ |- _ => destruct H as [? H]
           end;
    discriminate H.
Qed.

Lemma violates_spec (d : record) (key : string) (cls : classinfo) :
  violates d (key, cls) = false <->
  exists v, dict_get d key = Some v /\ isinstance v cls = true.
Proof.
  unfold violates, absent, mistyped, has_key, get. cbn [fst snd].
  destruct (dict_get d key) as [v|]; cbn [negb orb andb].
  - destruct (isinstance v cls) eqn:Hi; cbn [negb]; split.
    + intros _. exists v. auto.
    + intros _. reflexivity.
    + intros H. discriminate H.
    + intros (w & [= <-] & H). congruence.
  - split; [intros H; discriminate H|]. intros (w & H & _). discriminate H.
Qed.

(** C2, counterexample. A record that has every field, with the number 5 in
    its images list, has one field that is not of the type the Expected
    Schema gives it (images is no sequence of strings), and the schema check
    returns (True, "Product data schema is valid.") with no message for it;
    so does a record whose product_id is the boolean true. *)
Lemma schema_check_misses_schema_violations :
  spec_violations number_in_images = ["images"] /\
  validate_product_data_schema (VDict number_in_images)
    = Ret (RPair true (Text "Product data schema is valid.")) /\
  spec_violations boolean_id = ["product_id"] /\
  validate_product_data_schema (VDict boolean_id)
    = Ret (RPair true (Text "Product data schema is valid.")).
Proof. repeat split; vm_compute; reflexivity. Qed.

(** C2, amended. On every record the schema check looks at all 16 fields of
    the table of the code and never stops early: it returns (False, L) where
    L holds, in table order, one message per violating field, so k violations
    give k messages, and with no violation it returns (True, "Product data
    schema is valid."). A field violates when it is absent, with the message
    "Missing key '<key>' in product data.", or when it is present with a
    value that is no instance of its expected type, with the message "Key
    '<key>' has incorrect type. Expected type: <expected>, Actual type:
    <actual>". The type test looks at the kind of the value only: a string
    field takes a string; images and Buzzwords take a list, whatever its
    entries; product_id takes an integer or a boolean; nutrition takes a
    dictionary or null, ingredients a list or null, country_of_origin a
    string or null. *)
Theorem schema_reports_every_violation (d : record) :
  let bad := List.filter (violates d) expected_structure in
  length expected_structure = 16%nat /\
  validate_product_data_schema (VDict d) =
    Ret (match bad with
         | [] => RPair true (Text "Product data schema is valid.")
         | _ :: _ => RPair false (Texts (map (violation_message d) bad))
         end) /\
  length (map (violation_message d) bad) = length bad /\
  (forall item, In item bad <->
     In item expected_structure /\ (absent d item = true \/ mistyped d item = true)) /\
  (forall item, absent d item = true ->
     violation_message d item = missing_message (fst item)) /\
  (forall item, mistyped d item = true ->
     violation_message d item = type_message (fst item) (snd item) (get d (fst item))) /\
  (forall key cls,
     In key ["nutrition"; "ingredients"; "country_of_origin"] ->
     In (key, cls) expected_structure ->
     dict_get d key = Some VNone -> violates d (key, cls) = false) /\
  (* the table *)
  expected_structure =
    [ ("brand", Class TStr); ("title", Class TStr); ("description", Class TStr);
      ("image", Class TStr); ("images", Class TList); ("retail_price", Class TStr);
      ("final_price", Class TStr); ("url", Class TStr); ("product_id", Class TInt);
      ("category", Class TStr); ("sales_size", Class TStr);
      ("availability", Class TStr); ("Buzzwords", Class TList);
      ("nutrition", Classes [TDict; TNoneType]);
      ("ingredients", Classes [TList; TNoneType]);
      ("country_of_origin", Classes [TStr; TNoneType]) ] /\
  (* when a field violates *)
  (forall key cls,
     (absent d (key, cls) = true <-> dict_get d key = None) /\
     (mistyped d (key, cls) = true <->
        exists v, dict_get d key = Some v /\ isinstance v cls = false) /\
     (violates d (key, cls) = false <->
        exists v, dict_get d key = Some v /\ isinstance v cls = true)) /\
  (* the type test, by the kind of the value *)
  (forall v,
     (isinstance v (Class TStr) = true <-> exists s, v = VStr s) /\
     (isinstance v (Class TList) = true <-> exists l, v = VList l) /\
     (isinstance v (Class TInt) = true <->
        (exists n, v = VInt n) \/ (exists b, v = VBool b)) /\
     (isinstance v (Classes [TDict; TNoneType]) = true <->
        v = VNone \/ exists e, v = VDict e) /\
     (isinstance v (Classes [TList; TNoneType]) = true <->
        v = VNone \/ exists l, v = VList l) /\
     (isinstance v (Classes [TStr; TNoneType]) = true <->
        v = VNone \/ exists s, v = VStr s)) /\
  (* the messages *)
  (forall key : string,
     missing_message key = ("Missing key '" ++ key ++ "' in product data.")%string) /\
  (forall (key : string) cls v,
     type_message key cls v =
       ("Key '" ++ key ++ "' has incorrect type. Expected type: " ++ classinfo_str cls
        ++ ", Actual type: " ++ class_str (type_of v))%string) /\
  map classinfo_str
    [Class TStr; Class TList; Class TInt; Classes [TDict; TNoneType];
     Classes [TList; TNoneType]; Classes [TStr; TNoneType]]
    = ["<class 'str'>"; "<class 'list'>"; "<class 'int'>";
       "(<class 'dict'>, <class 'NoneType'>)";
       "(<class 'list'>, <class 'NoneType'>)";
       "(<class 'str'>, <class 'NoneType'>)"] /\
  (forall v,
     class_str (type_of v) =
       match v with
       | VNone => "<class 'NoneType'>"
       | VBool _ => "<class 'bool'>"
       | VInt _ => "<class 'int'>"
       | VStr _ => "<class 'str'>"
       | VList _ => "<class 'list'>"
       | VDict _ => "<class 'dict'>"
       end) /\
  validate_product_data_schema (VDict two_mistyped) =
    Ret (RPair false (Texts
      [ "Key 'brand' has incorrect type. Expected type: <class 'str'>, Actual type: <class 'int'>";
        "Missing key 'title' in product data.";
        "Missing key 'description' in product data.";
        "Missing key 'image' in product data.";
        "Missing key 'images' in product data.";
        "Missing key 'retail_price' in product data.";
        "Missing key 'final_price' in product data.";
        "Missing key 'url' in product data.";
        "Missing key 'product_id' in product data.";
        "Missing key 'category' in product data.";
        "Missing key 'sales_size' in product data.";
        "Missing key 'availability' in product data.";
        "Missing key 'Buzzwords' in product data.";
        "Key 'nutrition' has incorrect type. Expected type: (<class 'dict'>, <class 'NoneType'>), Actual type: <class 'str'>";
        "Missing key 'ingredients' in product data.";
        "Missing key 'country_of_origin' in product data." ])).
Proof.
  intros bad. split; [reflexivity|]. split.
  { unfold validate_product_data_schema. rewrite schema_loop_dict.
    run_bind. cbn [app]. fold bad.
    destruct bad; reflexivity. }
  split; [apply length_map|]. split.
  { intros item. unfold bad. rewrite filter_In. unfold violates.
    rewrite orb_true_iff. reflexivity. }
  split.
  { intros item H. unfold violation_message. rewrite H. reflexivity. }
  split.
  { intros item H. unfold violation_message, absent.
    unfold mistyped in H. apply andb_true_iff in H as [-> _]. reflexivity. }
  split.
  { intros key cls Hkey Hin Hget.
    unfold violates, absent, mistyped, has_key, get. cbn [fst snd].
    rewrite Hget. cbn [negb orb andb].
    simpl in Hkey. simpl in Hin.
    destruct Hkey as [<-|[<-|[<-|[]]]];
      repeat (destruct Hin as [Hin|Hin]; [try discriminate Hin|]);
      try contradiction;
      injection Hin as <-; reflexivity. }
  split; [reflexivity|]. split.
  { intros key cls. split; [|split; [|apply violates_spec]].
    - unfold absent, has_key. cbn [fst].
      destruct (dict_get d key); cbn [negb]; split; congruence.
    - unfold mistyped, has_key, get. cbn [fst snd].
      destruct (dict_get d key) as [v|]; cbn [andb].
      + destruct (isinstance v cls) eqn:Hi; cbn [negb]; split.
        * intros H. discriminate H.
        * intros (w & [= <-] & H). congruence.
        * intros _. exists v. auto.
        * intros _. reflexivity.
      + split; [intros H; discriminate H|]. intros (w & H & _). discriminate H. }
  split; [exact isinstance_by_kind|].
  split; [reflexivity|]. split; [reflexivity|]. split; [reflexivity|].
  split; [intros v; destruct v; reflexivity|].
  vm_compute. reflexivity.
Qed.

(** ** Shape of what the checks return *)

Lemma duplicate_loop_pair (images : list value) (unique_images : pyset) (r : retval) :
  duplicate_loop images unique_images = Ret r -> is_pair r.
Proof.
  revert unique_images. induction images as [|v images IH]; intros seen; simpl.
  - intros [= <-]. eexists _, _. reflexivity.
  - unfold hashable. destruct (as_atom v) as [a|]; run_bind; [|discriminate].
    destruct (set_mem seen a).
    + intros [= <-]. eexists _, _. reflexivity.
    + apply IH.
Qed.

Lemma duplicate_loop_hashable (images : list value) (unique_images : pyset) :
  Forall (fun v => as_atom v <> None) images ->
  exists r, duplicate_loop images unique_images = Ret r.
Proof.
  intros Hall. revert unique_images.
  induction Hall as [|v images Hv _ IH]; intros seen; simpl.
  - eexists. reflexivity.
  - unfold hashable. destruct (as_atom v) as [a|]; [|contradiction].
    run_bind. destruct (set_mem seen a); [eexists; reflexivity | apply IH].
Qed.

Lemma pair_is_pair (ok : bool) (why : reason) : is_pair (RPair ok why).
Proof. eexists _, _. reflexivity. Qed.

Lemma bool_is_bare (b : bool) : is_bare_bool (RBool b).
Proof. eexists. reflexivity. Qed.

Section ReturnShapes.
Variable product_data : value.

Lemma presence_shape : is_bare_bool (is_valid_product_data product_data).
Proof. destruct product_data; simpl; apply bool_is_bare. Qed.

Lemma price_shape (r : retval) :
  validate_selling_price product_data = Ret r -> is_bare_bool r.
Proof.
  unfold validate_selling_price.
  destruct (dot_get product_data "selling_price") as [sp|]; run_bind; [|discriminate].
  destruct (dot_get product_data "original_price") as [op|]; run_bind; [|discriminate].
  destruct (negb (is_none sp) && negb (is_none op)).
  - destruct (py_le sp op) as [[]|]; run_bind; try discriminate;
      intros [= <-]; apply bool_is_bare.
  - intros [= <-]; apply bool_is_bare.
Qed.

Lemma schema_shape (r : retval) :
  validate_product_data_schema product_data = Ret r -> is_pair r.
Proof.
  unfold validate_product_data_schema.
  destruct (schema_loop product_data expected_structure []) as [[|e errs]|];
    run_bind; try discriminate; intros [= <-]; apply pair_is_pair.
Qed.

Lemma image_shape (r : retval) :
  validate_image_data product_data = Ret r -> is_pair r.
Proof.
  unfold validate_image_data.
  destruct (dot_get product_data "image") as [image|]; run_bind; [|discriminate].
  destruct (is_none image); [intros [= <-]; apply pair_is_pair|].
  destruct (dot_get product_data "images") as [images|]; run_bind; [|discriminate].
  destruct (negb (truthy images)); [intros [= <-]; apply pair_is_pair|].
  destruct (py_iter images) as [imgs|]; run_bind; [|discriminate].
  destruct (negb (existsb is_http_string imgs)); intros [= <-]; apply pair_is_pair.
Qed.

Lemma url_shape (r : retval) :
  validate_url_format product_data = Ret r -> is_pair r.
Proof.
  unfold validate_url_format.
  destruct (dot_get product_data "url") as [url|]; run_bind; [|discriminate].
  destruct (negb (is_none url)); [|intros [= <-]; apply pair_is_pair].
  destruct url as [| | |u| |]; try discriminate.
  destruct (negb (re_match url_pattern u)); intros [= <-]; apply pair_is_pair.
Qed.

Lemma uniqueness_shape (product_ids ids' : pyset) (r : retval) :
  validate_product_id_uniqueness product_data product_ids = (Ret r, ids') -> is_pair r.
Proof.
  unfold validate_product_id_uniqueness.
  destruct (dot_get product_data "product_id") as [pid|]; [|discriminate].
  destruct (hashable pid) as [a|]; [|discriminate].
  destruct (set_mem product_ids a); intros [= <- _]; apply pair_is_pair.
Qed.

Lemma duplicates_shape (r : retval) :
  validate_duplicate_images product_data = Ret r -> is_pair r.
Proof.
  unfold validate_duplicate_images.
  destruct (dot_get product_data "images") as [images|]; run_bind; [|discriminate].
  destruct (truthy images); [|intros [= <-]; apply pair_is_pair].
  destruct (py_iter images) as [imgs|]; run_bind; [|discriminate].
  apply duplicate_loop_pair.
Qed.
End ReturnShapes.

Section ReturnsOnRecords.
Variable d : record.

Lemma schema_returns : exists r, validate_product_data_schema (VDict d) = Ret r.
Proof.
  unfold validate_product_data_schema. rewrite schema_loop_dict.
  run_bind. destruct (_ ++ _); eexists; reflexivity.
Qed.

Lemma image_returns (l : list value) :
  get d "images" = VList l -> exists r, validate_image_data (VDict d) = Ret r.
Proof.
  intros Hl. unfold validate_image_data. cbn [dot_get]. run_bind.
  destruct (is_none (get d "image")); [eexists; reflexivity|].
  rewrite Hl. destruct (negb (truthy (VList l))); [eexists; reflexivity|].
  cbn [py_iter]. run_bind.
  destruct (negb (existsb is_http_string l)); eexists; reflexivity.
Qed.

Lemma url_returns (u : string) :
  get d "url" = VStr u -> exists r, validate_url_format (VDict d) = Ret r.
Proof.
  intros Hu. unfold validate_url_format. cbn [dot_get]. run_bind.
  rewrite Hu. cbn [is_none negb].
  destruct (negb (re_match url_pattern u)); eexists; reflexivity.
Qed.

Lemma uniqueness_returns (product_ids : pyset) (a : atom) :
  as_atom (get d "product_id") = Some a ->
  exists r ids', validate_product_id_uniqueness (VDict d) product_ids = (Ret r, ids').
Proof.
  intros Ha. unfold validate_product_id_uniqueness, hashable.
  cbn [dot_get]. rewrite Ha.
  destruct (set_mem product_ids a); eexists _, _; reflexivity.
Qed.

Lemma duplicates_returns (l : list value) :
  get d "images" = VList l -> Forall (fun v => as_atom v <> None) l ->
  exists r, validate_duplicate_images (VDict d) = Ret r.
Proof.
  intros Hl Hall. unfold validate_duplicate_images. cbn [dot_get]. run_bind.
  rewrite Hl. destruct (truthy (VList l)); [|eexists; reflexivity].
  cbn [py_iter]. run_bind. apply duplicate_loop_hashable. exact Hall.
Qed.
End ReturnsOnRecords.

(** C5, counterexample. On the empty record the structural presence check
    answers with the bare boolean False and the price check with the bare
    boolean True: neither is a pair of a boolean and a reason. *)
Lemma bare_boolean_checks :
  is_valid_product_data (VDict []) = RBool false /\
  validate_selling_price (VDict []) = Ret (RBool true) /\
  ~ is_pair (RBool false) /\ ~ is_pair (RBool true).
Proof.
  repeat split; intros (ok & why & H); discriminate H.
Qed.

(** C5, amended. The schema, image, URL, uniqueness and duplicate-image checks
    hand back a pair (boolean, reason) whenever they return; the structural
    presence check and the price check hand back a bare boolean. On a record
    the schema check always returns, and each other pair-returning check
    returns when the field it reads has a type it can work on. *)
Theorem check_return_shapes (product_data : value) (product_ids : pyset) :
  is_bare_bool (is_valid_product_data product_data) /\
  (forall r, validate_selling_price product_data = Ret r -> is_bare_bool r) /\
  (forall r, validate_product_data_schema product_data = Ret r -> is_pair r) /\
  (forall r, validate_image_data product_data = Ret r -> is_pair r) /\
  (forall r, validate_url_format product_data = Ret r -> is_pair r) /\
  (forall r ids',
     validate_product_id_uniqueness product_data product_ids = (Ret r, ids') ->
     is_pair r) /\
  (forall r, validate_duplicate_images product_data = Ret r -> is_pair r) /\
  (forall d, product_data = VDict d ->
     (exists r, validate_product_data_schema product_data = Ret r) /\
     (forall l, get d "images" = VList l ->
        exists r, validate_image_data product_data = Ret r) /\
     (forall u, get d "url" = VStr u ->
        exists r, validate_url_format product_data = Ret r) /\
     (forall a, as_atom (get d "product_id") = Some a ->
        exists r ids',
          validate_product_id_uniqueness product_data product_ids = (Ret r, ids')) /\
     (forall l, get d "images" = VList l -> Forall (fun v => as_atom v <> None) l ->
        exists r, validate_duplicate_images product_data = Ret r)).
Proof.
  repeat apply conj.
  - apply presence_shape.
  - apply price_shape.
  - apply schema_shape.
  - apply image_shape.
  - apply url_shape.
  - intros r ids'. apply uniqueness_shape.
  - apply duplicates_shape.
  - intros d ->. repeat apply conj.
    + apply schema_returns.
    + apply image_returns.
    + apply url_returns.
    + intros a. apply uniqueness_returns.
    + apply duplicates_returns.
Qed.

(** ** Image check *)

(** C6, counterexample. With a null image the reason is "Image key cannot be
    null", and with an image and an empty images list it is "Images list
    should contain at least one URL": neither is the text the claim quotes. *)
Lemma image_reasons_differ :
  validate_image_data (VDict [("image", VNone)])
    = Ret (RPair false (Text "Image key cannot be null")) /\
  validate_image_data (VDict [("image", VNone)])
    <> Ret (RPair false (Text "image key null")) /\
  validate_image_data (VDict [("image", VStr "http://x"); ("images", VList [])])
    = Ret (RPair false (Text "Images list should contain at least one URL")) /\
  validate_image_data (VDict [("image", VStr "http://x"); ("images", VList [])])
    <> Ret (RPair false (Text "images list should contain at least one URL")).
Proof. repeat split; discriminate. Qed.

Lemma get_absent (d : record) (key : string) :
  has_key d key = false -> get d key = VNone.
Proof. unfold has_key, get. destruct (dict_get d key); [discriminate | reflexivity]. Qed.

Lemma is_http_string_spec (img : value) :
  is_http_string img = true <-> exists rest, img = VStr ("http" ++ rest).
Proof.
  split.
  - destruct img as [| | |s| |]; simpl; try discriminate.
    intros H.
    destruct s as [|c1 [|c2 [|c3 [|c4 rest]]]]; simpl in H;
      repeat match type of H with
             | (if ?c then _ else _) = true => destruct c as [<-|]; [|discriminate H]
             end;
      try discriminate H.
    exists rest. reflexivity.
  - intros [rest ->]. simpl. destruct rest; reflexivity.
Qed.

(** C6, amended. For every record: a null or absent image gives (False,
    "Image key cannot be null"); otherwise an absent, null or empty images
    list, or a list with no entry that is a string starting with "http",
    gives (False, "Images list should contain at least one URL"); otherwise,
    the images list holding such an entry, the check gives (True, ""). *)
Theorem validate_image_data_contract (d : record) :
  (has_key d "image" = false -> get d "image" = VNone) /\
  (has_key d "images" = false -> get d "images" = VNone) /\
  (get d "image" = VNone ->
     validate_image_data (VDict d) = Ret (RPair false (Text "Image key cannot be null"))) /\
  (get d "image" <> VNone ->
     (get d "images" = VNone \/ get d "images" = VList [] ->
        validate_image_data (VDict d)
          = Ret (RPair false (Text "Images list should contain at least one URL"))) /\
     (forall l, get d "images" = VList l ->
        (forall img, In img l -> ~ exists rest, img = VStr ("http" ++ rest)) ->
        validate_image_data (VDict d)
          = Ret (RPair false (Text "Images list should contain at least one URL"))) /\
     (forall l img rest, get d "images" = VList l ->
        In img l -> img = VStr ("http" ++ rest) ->
        validate_image_data (VDict d) = Ret (RPair true (Text "")))).
Proof.
  split; [apply get_absent|]. split; [apply get_absent|].
  unfold validate_image_data. cbn [dot_get]. run_bind. split.
  - intros ->. reflexivity.
  - intros Himage.
    assert (is_none (get d "image") = false) as ->
      by (destruct (get d "image"); [contradiction | reflexivity ..]).
    repeat apply conj.
    + intros [-> | ->]; reflexivity.
    + intros l -> Hnone. cbn [truthy]. destruct l as [|img l]; [reflexivity|].
      cbn [negb py_iter]. run_bind.
      assert (existsb is_http_string (img :: l) = false) as ->; [|reflexivity].
      apply not_true_is_false. intros H. apply existsb_exists in H as (x & Hx & Hhttp).
      apply (Hnone x Hx). apply is_http_string_spec. exact Hhttp.
    + intros l img rest -> Hin ->. cbn [truthy]. destruct l as [|x l]; [destruct Hin|].
      cbn [negb py_iter]. run_bind.
      assert (existsb is_http_string (x :: l) = true) as ->; [|reflexivity].
      apply existsb_exists. eexists. split; [exact Hin|].
      apply is_http_string_spec. exists rest. reflexivity.
Qed.

(** ** The language of the URL pattern *)

Lemma is_newline_spec (c : ascii) : is_newline c = true <-> c = ascii_of_nat 10.
Proof.
  unfold is_newline. rewrite Nat.eqb_eq. split.
  - intros H. rewrite <- (ascii_nat_embedding c), H. reflexivity.
  - intros ->. reflexivity.
Qed.

Lemma match_bol (p : list re_item) (b : bool) (s : list ascii) :
  re_match_here (Bol :: p) b s = b && re_match_here p b s.
Proof. reflexivity. Qed.

Lemma match_lit (c : ascii) (p : list re_item) (b : bool) (s : list ascii) :
  re_match_here (Lit c :: p) b s =
    match s with
    | x :: s' => Ascii.eqb x c && re_match_here p false s'
    | [] => false
    end.
Proof. reflexivity. Qed.

Lemma match_optlit (c : ascii) (p : list re_item) (b : bool) (s : list ascii) :
  re_match_here (OptLit c :: p) b s =
    match s with
    | x :: s' => Ascii.eqb x c && re_match_here p false s'
    | [] => false
    end || re_match_here p b s.
Proof. reflexivity. Qed.

Lemma match_run_to_end (b : bool) (s : list ascii) :
  re_match_here [PlusNotSpace; Eol] b s = true <-> run_to_end s.
Proof.
  induction s as [|x s IH].
  - split; [discriminate|]. intros (body & tail & Hs & Hne & _).
    destruct body; [contradiction | discriminate].
  - change (re_match_here [PlusNotSpace; Eol] b (x :: s))
      with (negb (is_space x) &&
            (re_match_here [PlusNotSpace; Eol] b s || re_match_here [Eol] false s)).
    rewrite andb_true_iff, orb_true_iff, IH. split.
    + intros [Hx [(body & tail & -> & Hne & Hbody & Htail) | Heol]].
      * exists (x :: body), tail. repeat split; [discriminate | | exact Htail].
        simpl. rewrite Hx. exact Hbody.
      * exists [x], s. repeat split; [discriminate | simpl; rewrite Hx; reflexivity |].
        destruct s as [|c [|c' s]]; simpl in Heol; [auto | | discriminate].
        right. rewrite andb_true_r in Heol. apply is_newline_spec in Heol as ->. reflexivity.
    + intros (body & tail & Hs & Hne & Hbody & Htail).
      destruct body as [|y body]; [contradiction|].
      injection Hs as <- ->. simpl in Hbody. apply andb_true_iff in Hbody as [Hx Hbody].
      split; [exact Hx|]. destruct body as [|z body].
      * right. destruct Htail as [-> | ->]; reflexivity.
      * left. exists (z :: body), tail. repeat split; [discriminate | exact Hbody | exact Htail].
Qed.

(** The strings the URL pattern accepts: http or https, then ://, then a
    non-empty run of non-whitespace characters up to the end of the string or
    up to one final newline. *)
Theorem url_pattern_language (u : string) :
  re_match url_pattern u = true <->
  exists (scheme : string) (rest : list ascii),
    (scheme = "http" \/ scheme = "https") /\
    u = (scheme ++ "://" ++ string_of_list_ascii rest)%string /\
    run_to_end rest.
Proof.
  unfold re_match, url_pattern. rewrite match_bol. cbn [andb]. split.
  - intros H. rewrite <- (string_of_list_ascii_of_string u).
    destruct (list_ascii_of_string u) as [|c1 [|c2 [|c3 [|c4 l]]]];
      repeat (rewrite match_lit in H; try discriminate H;
              apply andb_true_iff in H as [?%Ascii.eqb_eq H]; subst).
    rewrite match_optlit in H. apply orb_true_iff in H as [H | H].
    + destruct l as [|c5 l]; [discriminate H|].
      apply andb_true_iff in H as [?%Ascii.eqb_eq H]; subst.
      destruct l as [|c6 [|c7 [|c8 l]]];
        repeat (rewrite match_lit in H; try discriminate H;
                apply andb_true_iff in H as [?%Ascii.eqb_eq H]; subst).
      apply match_run_to_end in H. exists "https", l. auto.
    + destruct l as [|c6 [|c7 [|c8 l]]];
        repeat (rewrite match_lit in H; try discriminate H;
                apply andb_true_iff in H as [?%Ascii.eqb_eq H]; subst).
      apply match_run_to_end in H. exists "http", l. auto.
  - intros (scheme & rest & Hscheme & -> & Hrest).
    apply (match_run_to_end false) in Hrest.
    destruct Hscheme as [-> | ->]; cbv [String.append]; cbn [list_ascii_of_string];
      rewrite list_ascii_of_string_of_list_ascii;
      repeat (rewrite match_lit; cbn [Ascii.eqb Bool.eqb andb]);
      rewrite match_optlit; cbn [Ascii.eqb Bool.eqb andb orb].
    + repeat (rewrite match_lit; cbn [Ascii.eqb Bool.eqb andb]). exact Hrest.
    + repeat (rewrite match_lit; cbn [Ascii.eqb Bool.eqb andb orb]).
      rewrite Hrest. reflexivity.
Qed.

(** ** URL format check *)

(** C7, at the failing input. A url that ends in a newline after the
    non-whitespace characters passes the check: [$] also matches just before
    a final newline. The other urls of the claim behave as it says. *)
Theorem url_with_final_newline_passes :
  is_space (ascii_of_nat 10) = true /\
  validate_url_format (VDict [("url", VStr ("http://a" ++ newline))])
    = Ret (RPair true (Text "")) /\
  validate_url_format (VDict [("url", VStr "http://a b")])
    = Ret (RPair false (Text url_message)) /\
  validate_url_format (VDict [("url", VStr "ftp://example.com")])
    = Ret (RPair false (Text url_message)) /\
  validate_url_format (VDict [("url", VStr "http://example.com")])
    = Ret (RPair true (Text "")) /\
  validate_url_format (VDict []) = Ret (RPair true (Text "")).
Proof. repeat split. Qed.

(** The URL check on a record: an absent or null url passes; a url string
    passes exactly when it is http or https, then ://, then a non-empty run
    of non-whitespace characters that ends the string or is followed by one
    final newline; any other url string fails with the standard-format
    reason. *)
Theorem validate_url_format_contract (d : record) :
  (has_key d "url" = false -> get d "url" = VNone) /\
  (get d "url" = VNone -> validate_url_format (VDict d) = Ret (RPair true (Text ""))) /\
  (forall u, get d "url" = VStr u ->
     ((exists (scheme : string) (rest : list ascii),
         (scheme = "http" \/ scheme = "https") /\
         u = (scheme ++ "://" ++ string_of_list_ascii rest)%string /\
         run_to_end rest) ->
      validate_url_format (VDict d) = Ret (RPair true (Text ""))) /\
     (~ (exists (scheme : string) (rest : list ascii),
         (scheme = "http" \/ scheme = "https") /\
         u = (scheme ++ "://" ++ string_of_list_ascii rest)%string /\
         run_to_end rest) ->
      validate_url_format (VDict d)
        = Ret (RPair false
                 (Text "URL should be in standardized format (e.g., http://example.com)")))).
Proof.
  split; [apply get_absent|].
  unfold validate_url_format. cbn [dot_get]. run_bind. split.
  - intros ->. reflexivity.
  - intros u ->. cbn [is_none negb]. rewrite <- url_pattern_language.
    destruct (re_match url_pattern u); split; intros H; try reflexivity.
    + contradiction H. reflexivity.
    + discriminate H.
Qed.

(** ** Price consistency check *)

(** C9, counterexample. A record whose selling_price is the string "10" and
    whose original_price is the integer 20 has both fields present and not
    null, and the check returns neither True nor False: the comparison raises
    TypeError. *)
Lemma price_check_raises_on_mixed_types :
  let d := [("selling_price", VStr "10"); ("original_price", VInt 20)] in
  get d "selling_price" <> VNone /\ get d "original_price" <> VNone /\
  validate_selling_price (VDict d) = Raise TypeError /\
  validate_selling_price (VDict d) <> Ret (RBool true) /\
  validate_selling_price (VDict d) <> Ret (RBool false).
Proof. repeat split; discriminate. Qed.

(** C9, amended. The check reads selling_price and original_price only. If
    either is absent or null it returns True. If both are present and not
    null and Python can order them (two numbers, two strings, or two lists
    whose first differing items can be ordered), it returns True when
    selling_price <= original_price and False otherwise; on two integers
    that is the order of the integers. *)
Theorem validate_selling_price_contract (d : record) :
  (has_key d "selling_price" = false -> get d "selling_price" = VNone) /\
  (has_key d "original_price" = false -> get d "original_price" = VNone) /\
  (get d "selling_price" = VNone \/ get d "original_price" = VNone ->
     validate_selling_price (VDict d) = Ret (RBool true)) /\
  (forall below, get d "selling_price" <> VNone -> get d "original_price" <> VNone ->
     py_le (get d "selling_price") (get d "original_price") = Ret below ->
     validate_selling_price (VDict d) = Ret (RBool below)) /\
  (forall n m, get d "selling_price" = VInt n -> get d "original_price" = VInt m ->
     validate_selling_price (VDict d) = Ret (RBool (n <=? m)%Z)) /\
  (forall d', get d' "selling_price" = get d "selling_price" ->
     get d' "original_price" = get d "original_price" ->
     validate_selling_price (VDict d') = validate_selling_price (VDict d)).
Proof.
  split; [apply get_absent|]. split; [apply get_absent|].
  unfold validate_selling_price. cbn [dot_get]. run_bind.
  repeat apply conj.
  - intros [-> | ->]; [reflexivity|].
    destruct (is_none (get d "selling_price")); reflexivity.
  - intros below Hs Ho Hle.
    assert (is_none (get d "selling_price") = false) as ->
      by (destruct (get d "selling_price"); [contradiction | reflexivity ..]).
    assert (is_none (get d "original_price") = false) as ->
      by (destruct (get d "original_price"); [contradiction | reflexivity ..]).
    cbn [negb andb]. rewrite Hle. run_bind. destruct below; reflexivity.
  - intros n m -> ->. cbn [is_none negb andb py_le]. run_bind.
    destruct (n <=? m)%Z; reflexivity.
  - intros d' -> ->. reflexivity.
Qed.

(** ** Orchestration *)

Section PriceFieldsUnread.
Variables d d' : record.
Hypothesis Hagree : agree_off_prices d d'.

Lemma agree_get (key : string) :
  key <> "selling_price" -> key <> "original_price" -> get d key = get d' key.
Proof. intros H1 H2. unfold get. rewrite (Hagree key H1 H2). reflexivity. Qed.

Lemma agree_has_key (key : string) :
  key <> "selling_price" -> key <> "original_price" -> has_key d key = has_key d' key.
Proof. intros H1 H2. unfold has_key. rewrite (Hagree key H1 H2). reflexivity. Qed.

Lemma agree_presence :
  is_valid_product_data (VDict d) = is_valid_product_data (VDict d').
Proof.
  cbn [is_valid_product_data]. rewrite !all_keys_present_forallb.
  unfold required_keys. cbn [forallb].
  rewrite !(agree_has_key _) by discriminate. reflexivity.
Qed.

Lemma agree_violations (items : list (string * classinfo)) :
  Forall (fun item : string * classinfo =>
            fst item <> "selling_price" /\ fst item <> "original_price") items ->
  map (violation_message d) (List.filter (violates d) items) =
  map (violation_message d') (List.filter (violates d') items).
Proof.
  induction 1 as [|item items [H1 H2] _ IH]; [reflexivity|].
  cbn [List.filter].
  assert (violates d item = violates d' item) as ->.
  { unfold violates, absent, mistyped.
    rewrite (agree_has_key _ H1 H2), (agree_get _ H1 H2). reflexivity. }
  destruct (violates d' item); cbn [map]; [|exact IH].
  rewrite IH. f_equal. unfold violation_message, absent.
  rewrite (agree_has_key _ H1 H2), (agree_get _ H1 H2). reflexivity.
Qed.

Lemma agree_schema :
  validate_product_data_schema (VDict d) = validate_product_data_schema (VDict d').
Proof.
  unfold validate_product_data_schema. rewrite !schema_loop_dict.
  rewrite agree_violations; [reflexivity|].
  unfold expected_structure. repeat constructor; discriminate.
Qed.

Lemma agree_image : validate_image_data (VDict d) = validate_image_data (VDict d').
Proof.
  unfold validate_image_data. cbn [dot_get].
  rewrite !(agree_get _) by discriminate. reflexivity.
Qed.

Lemma agree_url : validate_url_format (VDict d) = validate_url_format (VDict d').
Proof.
  unfold validate_url_format. cbn [dot_get].
  rewrite !(agree_get _) by discriminate. reflexivity.
Qed.

Lemma agree_uniqueness (product_ids : pyset) :
  validate_product_id_uniqueness (VDict d) product_ids =
  validate_product_id_uniqueness (VDict d') product_ids.
Proof.
  unfold validate_product_id_uniqueness. cbn [dot_get].
  rewrite !(agree_get _) by discriminate. reflexivity.
Qed.

Lemma agree_duplicates :
  validate_duplicate_images (VDict d) = validate_duplicate_images (VDict d').
Proof.
  unfold validate_duplicate_images. cbn [dot_get].
  rewrite !(agree_get _) by discriminate. reflexivity.
Qed.

Lemma agree_validate_pdp_data (product_ids : pyset) :
  validate_pdp_data (VDict d) product_ids = validate_pdp_data (VDict d') product_ids.
Proof.
  unfold validate_pdp_data.
  rewrite agree_presence, agree_schema, agree_image, agree_url,
    agree_uniqueness, agree_duplicates.
  reflexivity.
Qed.
End PriceFieldsUnread.

(** C1, counterexample. On a record that passes every check the orchestrator
    returns (True, "Product data is valid"), which is not the pair the claim
    quotes. *)
Lemma valid_message_differs :
  validate_pdp_data (good 1) ∅ = (Ret (RPair true (Text "Product data is valid")), {[ KNum 1 ]}) /\
  fst (validate_pdp_data (good 1) ∅) <> Ret (RPair true (Text "product data is valid")).
Proof.
  split; [|vm_compute; discriminate].
  unfold validate_pdp_data. vm_compute. f_equal.
Qed.

(** Replays the orchestrator on the outcomes of its checks found among the
    hypotheses. *)
Ltac by_checks :=
  unfold validate_pdp_data;
  repeat match goal with
         | H : _ = _ |- _ => rewrite H; clear H
         end;
  reflexivity.

(** C1, amended. The orchestrator runs, in this order, the structural
    presence check, the schema check, the image check, the URL check, the
    uniqueness check and the duplicate-image check; the first one that fails
    ends it with (False, reason), the reason being "Invalid product data
    structure" for the presence check and the failing check's own reason for
    the others; when all six pass it returns (True, "Product data is
    valid"). The price check is not run: the result does not depend on
    selling_price and original_price, and a record that fails the price check
    is accepted. The set of seen identifiers changes only through the
    uniqueness check. *)
Theorem validate_pdp_data_order (json_data : value) (product_ids : pyset) :
  (is_valid_product_data json_data = RBool false ->
     validate_pdp_data json_data product_ids
       = (Ret (RPair false (Text "Invalid product data structure")), product_ids)) /\
  (is_valid_product_data json_data = RBool true ->
   (forall why, validate_product_data_schema json_data = Ret (RPair false why) ->
      validate_pdp_data json_data product_ids = (Ret (RPair false why), product_ids)) /\
   (forall m2, validate_product_data_schema json_data = Ret (RPair true m2) ->
    (forall why, validate_image_data json_data = Ret (RPair false why) ->
       validate_pdp_data json_data product_ids = (Ret (RPair false why), product_ids)) /\
    (forall m4, validate_image_data json_data = Ret (RPair true m4) ->
     (forall why, validate_url_format json_data = Ret (RPair false why) ->
        validate_pdp_data json_data product_ids = (Ret (RPair false why), product_ids)) /\
     (forall m5, validate_url_format json_data = Ret (RPair true m5) ->
      (forall why ids',
         validate_product_id_uniqueness json_data product_ids
           = (Ret (RPair false why), ids') ->
         validate_pdp_data json_data product_ids = (Ret (RPair false why), ids')) /\
      (forall m6 ids',
         validate_product_id_uniqueness json_data product_ids
           = (Ret (RPair true m6), ids') ->
       (forall why, validate_duplicate_images json_data = Ret (RPair false why) ->
          validate_pdp_data json_data product_ids = (Ret (RPair false why), ids')) /\
       (forall m7, validate_duplicate_images json_data = Ret (RPair true m7) ->
          validate_pdp_data json_data product_ids
            = (Ret (RPair true (Text "Product data is valid")), ids'))))))) /\
  (forall d d', json_data = VDict d -> agree_off_prices d d' ->
     validate_pdp_data (VDict d') product_ids = validate_pdp_data (VDict d) product_ids) /\
  (validate_selling_price (VDict overpriced) = Ret (RBool false) /\
   fst (validate_pdp_data (VDict overpriced) product_ids)
     = fst (validate_pdp_data (good 7) product_ids)).
Proof.
  split; [intros; by_checks|]. split; [|split; [|split]].
  - intros H1. split; [intros; by_checks|].
    intros m2 H2. split; [intros; by_checks|].
    intros m4 H4. split; [intros; by_checks|].
    intros m5 H5. split; [intros; by_checks|].
    intros m6 ids' H6. split; intros; by_checks.
  - intros d d' _ Hagree. symmetry. apply agree_validate_pdp_data. exact Hagree.
  - reflexivity.
  - reflexivity.
Qed.

(** ** Uniqueness of product identifiers across a batch *)

Lemma set_add_member (product_ids : pyset) (a : atom) :
  set_mem product_ids a = true -> set_add product_ids a = product_ids.
Proof.
  unfold set_mem, set_add. intros H. apply bool_decide_eq_true in H.
  apply subseteq_union_1_L. apply singleton_subseteq_l. exact H.
Qed.

Lemma uniqueness_step (d : record) (a : atom) (product_ids : pyset) :
  as_atom (get d "product_id") = Some a ->
  validate_product_id_uniqueness (VDict d) product_ids
    = (Ret (uniqueness_result a product_ids), set_add product_ids a).
Proof.
  intros Ha. unfold validate_product_id_uniqueness, hashable, uniqueness_result.
  cbn [dot_get]. rewrite Ha.
  destruct (set_mem product_ids a) eqn:Hmem; [|reflexivity].
  rewrite (set_add_member _ _ Hmem). reflexivity.
Qed.

Lemma uniqueness_pass_spec (batch : list record) (product_ids : pyset) :
  Forall hashable_id batch ->
  exists results,
    uniqueness_pass (map VDict batch) product_ids
      = (Ret results, seen_after batch product_ids) /\
    length results = length batch /\
    forall (i : nat) d a,
      batch !! i = Some d -> as_atom (get d "product_id") = Some a ->
      results !! i = Some (uniqueness_result a (seen_after (take i batch) product_ids)).
Proof.
  intros Hall. revert product_ids.
  induction Hall as [|d rest Hd _ IH]; intros ids.
  - exists []. repeat split. intros i d a Hi. rewrite lookup_nil in Hi. discriminate.
  - unfold hashable_id in Hd.
    destruct (as_atom (get d "product_id")) as [a0|] eqn:Ha0; [clear Hd | contradiction].
    destruct (IH (set_add ids a0)) as (results & Hrun & Hlen & Hidx).
    exists (uniqueness_result a0 ids :: results).
    cbn [map uniqueness_pass seen_after]. rewrite (uniqueness_step _ _ _ Ha0), Ha0, Hrun.
    run_bind. split; [reflexivity|]. split; [simpl; rewrite Hlen; reflexivity|].
    intros [|i] d' a Hi Ha.
    + simpl in Hi. injection Hi as <-. rewrite Ha0 in Ha. injection Ha as <-. reflexivity.
    + cbn [take seen_after]. rewrite Ha0. simpl in Hi. simpl. apply (Hidx i d' a Hi Ha).
Qed.

Lemma elem_of_seen_after (batch : list record) (product_ids : pyset) (k : hkey) :
  k ∈ seen_after batch product_ids <->
  k ∈ product_ids \/
  exists (j : nat) d a,
    batch !! j = Some d /\ as_atom (get d "product_id") = Some a /\ atom_key a = k.
Proof.
  revert product_ids. induction batch as [|d rest IH]; intros ids; cbn [seen_after].
  - split; [auto|]. intros [H | (j & d & a & Hj & _)]; [exact H|].
    rewrite lookup_nil in Hj. discriminate.
  - rewrite IH. split.
    + intros [H | (j & d' & a & Hj & Ha & Hk)].
      * destruct (as_atom (get d "product_id")) as [a0|] eqn:Ha0; [|auto].
        unfold set_add in H. apply elem_of_union in H as [H|H]; [|auto].
        apply elem_of_singleton in H. right. exists 0%nat, d, a0. auto.
      * right. exists (S j), d', a. auto.
    + intros [H | (j & d' & a & Hj & Ha & Hk)].
      * left. destruct (as_atom (get d "product_id")); [|exact H].
        unfold set_add. apply elem_of_union. auto.
      * destruct j as [|j].
        -- simpl in Hj. injection Hj as <-. left. rewrite Ha.
           unfold set_add. apply elem_of_union. left. apply elem_of_singleton. auto.
        -- right. exists j, d', a. auto.
Qed.

(** On hashable values [==] is equality of the keys a set stores. *)
Lemma py_eq_atoms (v w : value) (a b : atom) :
  as_atom v = Some a -> as_atom w = Some b ->
  (py_eq v w = true <-> atom_key a = atom_key b).
Proof.
  destruct v as [|x|n|s| |], w as [|y|m|t| |]; simpl;
    try discriminate; intros [= <-] [= <-]; simpl;
    try (split; [discriminate | intros H; discriminate H]);
    try (split; reflexivity).
  - destruct x, y; simpl; split; congruence.
  - rewrite Z.eqb_eq. split; [intros ->; reflexivity | intros [= H]; exact H].
  - rewrite Z.eqb_eq. split; [intros ->; reflexivity | intros [= H]; exact H].
  - rewrite Z.eqb_eq. split; [intros ->; reflexivity | intros [= H]; exact H].
  - rewrite String.eqb_eq. split; [intros ->; reflexivity | intros [= H]; exact H].
Qed.

Lemma seen_earlier_spec (batch : list record) (i : nat) (d : record) (a : atom) :
  Forall hashable_id batch ->
  as_atom (get d "product_id") = Some a ->
  (atom_key a ∈ seen_after (take i batch) ∅ <-> seen_earlier batch i d).
Proof.
  intros Hall Ha. rewrite elem_of_seen_after. unfold seen_earlier. split.
  - intros [H | (j & d' & b & Hj & Hb & Hk)]; [set_solver|].
    apply lookup_take_Some in Hj as [Hj Hlt].
    exists j, d'. repeat split; [exact Hlt | exact Hj |].
    apply (py_eq_atoms _ _ b a Hb Ha). exact Hk.
  - intros (j & d' & Hlt & Hj & Heq). right.
    assert (Hd' : hashable_id d').
    { rewrite Forall_forall in Hall. apply Hall.
      apply list_elem_of_lookup. eauto. }
    unfold hashable_id in Hd'.
    destruct (as_atom (get d' "product_id")) as [b|] eqn:Hb; [|contradiction].
    exists j, d', b. split; [apply lookup_take_Some; auto|].
    split; [exact Hb|]. apply (py_eq_atoms _ _ b a Hb Ha). exact Heq.
Qed.

(** C3, counterexample. On the identifiers 1, 2, 1 the third record fails
    with the reason "Duplicate product_id: 1", which is not the text
    "duplicate product_id: 1" of the claim. And in the batch loop a record
    whose identifier occurred in an earlier record is not reported when that
    earlier record was rejected before the uniqueness check. *)
Lemma duplicate_reason_differs :
  fst (uniqueness_pass (map VDict ids_121) ∅)
    = Ret [RPair true (Text ""); RPair true (Text "");
           RPair false (Text "Duplicate product_id: 1")] /\
  fst (uniqueness_pass (map VDict ids_121) ∅)
    <> Ret [RPair true (Text ""); RPair true (Text "");
            RPair false (Text "duplicate product_id: 1")] /\
  fst (run_batch [no_images 1; good 1])
    = Ret [(1%nat, Text "Images list should contain at least one URL")].
Proof.
  split; [reflexivity|]. split; [vm_compute; discriminate | vm_compute; reflexivity].
Qed.

(** C3, amended. When the uniqueness check is applied to the records of a
    batch in order on one set that starts empty, the identifiers being
    hashable, it fails with reason "Duplicate product_id: <id>" exactly on the
    records whose product_id equals (Python ==) the product_id of an earlier
    record, and passes with an empty reason on the others; a check that
    passes adds the identifier to the set and a check that fails leaves the
    set as it is. For the identifiers 1, 2, 1 only the third record fails, and
    the batch loop of the script reports only record 3. The batch loop runs
    the check only on the records that passed the checks before it, so the
    identifier of a record rejected earlier is not in the set. *)
Theorem uniqueness_across_batch (batch : list record) :
  Forall hashable_id batch ->
  exists results ids',
    uniqueness_pass (map VDict batch) ∅ = (Ret results, ids') /\
    length results = length batch /\
    (forall (i : nat) d a,
       batch !! i = Some d -> as_atom (get d "product_id") = Some a ->
       (seen_earlier batch i d ->
          results !! i
            = Some (RPair false (Text ("Duplicate product_id: " ++ atom_str a)))) /\
       (~ seen_earlier batch i d -> results !! i = Some (RPair true (Text "")))) /\
    (forall d a, d ∈ batch -> as_atom (get d "product_id") = Some a ->
       atom_key a ∈ ids') /\
    (forall d a (ids : pyset), as_atom (get d "product_id") = Some a ->
       (atom_key a ∈ ids ->
          validate_product_id_uniqueness (VDict d) ids
            = (Ret (RPair false (Text ("Duplicate product_id: " ++ atom_str a))), ids)) /\
       (atom_key a ∉ ids ->
          validate_product_id_uniqueness (VDict d) ids
            = (Ret (RPair true (Text "")), {[ atom_key a ]} ∪ ids))) /\
    fst (uniqueness_pass (map VDict ids_121) ∅)
      = Ret [RPair true (Text ""); RPair true (Text "");
             RPair false (Text "Duplicate product_id: 1")] /\
    fst (run_batch [good 1; good 2; good 1])
      = Ret [(3%nat, Text "Duplicate product_id: 1")] /\
    fst (run_batch [no_images 1; good 1])
      = Ret [(1%nat, Text "Images list should contain at least one URL")].
Proof.
  intros Hall.
  destruct (uniqueness_pass_spec batch ∅ Hall) as (results & Hrun & Hlen & Hidx).
  exists results, (seen_after batch ∅).
  split; [exact Hrun|]. split; [exact Hlen|].
  split; [|split; [|split; [|split; [|split]]]].
  - intros i d a Hi Ha. rewrite (Hidx i d a Hi Ha). unfold uniqueness_result, set_mem.
    pose proof (seen_earlier_spec batch i d a Hall Ha) as Hiff. split; intros H.
    + rewrite bool_decide_eq_true_2; [reflexivity | apply Hiff; exact H].
    + rewrite bool_decide_eq_false_2; [reflexivity | rewrite Hiff; exact H].
  - intros d a Hd Ha. apply elem_of_seen_after. right.
    apply list_elem_of_lookup in Hd as [j Hj]. exists j, d, a. auto.
  - intros d a ids Ha. unfold validate_product_id_uniqueness, hashable, set_mem, set_add.
    cbn [dot_get]. rewrite Ha. split; intros H.
    + rewrite bool_decide_eq_true_2; [reflexivity | exact H].
    + rewrite bool_decide_eq_false_2; [reflexivity | exact H].
  - reflexivity.
  - vm_compute. reflexivity.
  - vm_compute. reflexivity.
Qed.

Lemma uniqueness_across_batch_121 :
  Forall hashable_id ids_121 /\
  exists results ids',
    uniqueness_pass (map VDict ids_121) ∅ = (Ret results, ids') /\
    results !! 2%nat = Some (RPair false (Text "Duplicate product_id: 1")) /\
    results !! 1%nat = Some (RPair true (Text "")).
Proof.
  assert (Hall : Forall hashable_id ids_121) by (repeat constructor; discriminate).
  split; [exact Hall|].
  destruct (uniqueness_across_batch ids_121 Hall)
    as (results & ids' & Hrun & _ & Hidx & _).
  exists results, ids'. split; [exact Hrun|]. split.
  - apply (Hidx 2%nat (with_id (VInt 1)) (AInt 1) eq_refl eq_refl).
    exists 0%nat, (with_id (VInt 1)). repeat split. lia.
  - apply (Hidx 1%nat (with_id (VInt 2)) (AInt 2) eq_refl eq_refl).
    intros (j & d' & Hlt & Hj & Heq).
    destruct j as [|[|j]]; [|lia|lia].
    injection Hj as <-. discriminate Heq.
Defined.

(** ** Records without a product_id *)

Lemma py_eq_none (v : value) : py_eq v VNone = true <-> v = VNone.
Proof. destruct v; simpl; split; congruence. Qed.

(** C10, counterexample. In this batch the second and third records have no
    product_id key and the first carries an explicit null: the first record
    without the key fails the check, since null is in the set already. *)
Lemma first_keyless_record_fails :
  map (fun d => has_key d "product_id") null_then_keyless = [true; false; false] /\
  fst (uniqueness_pass (map VDict null_then_keyless) ∅)
    = Ret [RPair true (Text "");
           RPair false (Text "Duplicate product_id: None");
           RPair false (Text "Duplicate product_id: None")].
Proof. split; reflexivity. Qed.

(** C10, amended. A record without a product_id key enters the uniqueness
    check with None as its identifier. When the check is applied to the
    records of a batch in order on one set that starts empty, such a record
    passes if no earlier record has an absent or null product_id, and None is
    then in the set; it fails with reason "Duplicate product_id: None" if
    some earlier record has an absent or null product_id. The orchestrator
    itself rejects a record without a product_id key at the presence check,
    before the uniqueness check, and leaves the set as it is. *)
Theorem missing_product_id_counts_as_none (batch : list record) :
  Forall hashable_id batch ->
  (forall d (product_ids : pyset), has_key d "product_id" = false ->
     validate_pdp_data (VDict d) product_ids
       = (Ret (RPair false (Text "Invalid product data structure")), product_ids)) /\
  exists results ids',
    uniqueness_pass (map VDict batch) ∅ = (Ret results, ids') /\
    forall (i : nat) d,
      batch !! i = Some d -> has_key d "product_id" = false ->
      get d "product_id" = VNone /\
      KNone ∈ ids' /\
      ((forall (j : nat) d', (j < i)%nat -> batch !! j = Some d' ->
          get d' "product_id" <> VNone) ->
       results !! i = Some (RPair true (Text ""))) /\
      ((exists (j : nat) d', (j < i)%nat /\ batch !! j = Some d' /\
          get d' "product_id" = VNone) ->
       results !! i = Some (RPair false (Text "Duplicate product_id: None"))).
Proof.
  intros Hall. split.
  { intros d ids Hkey. unfold validate_pdp_data.
    cbn [is_valid_product_data all_keys_present required_keys].
    destruct (has_key d "brand"), (has_key d "title"); cbn [negb]; try reflexivity.
    rewrite Hkey. reflexivity. }
  destruct (uniqueness_pass_spec batch ∅ Hall) as (results & Hrun & _ & Hidx).
  exists results, (seen_after batch ∅). split; [exact Hrun|].
  intros i d Hi Hkey. pose proof (get_absent d _ Hkey) as Hnone.
  assert (Ha : as_atom (get d "product_id") = Some ANone) by (rewrite Hnone; reflexivity).
  pose proof (seen_earlier_spec batch i d ANone Hall Ha) as Hiff.
  split; [exact Hnone|]. split; [|split].
  - apply elem_of_seen_after. right. exists i, d, ANone. auto.
  - intros Hfirst. rewrite (Hidx i d ANone Hi Ha). unfold uniqueness_result, set_mem.
    rewrite bool_decide_eq_false_2; [reflexivity|].
    rewrite Hiff. intros (j & d' & Hlt & Hj & Heq).
    rewrite Hnone in Heq. apply py_eq_none in Heq. exact (Hfirst j d' Hlt Hj Heq).
  - intros (j & d' & Hlt & Hj & Hd'). rewrite (Hidx i d ANone Hi Ha).
    unfold uniqueness_result, set_mem.
    rewrite bool_decide_eq_true_2; [reflexivity|].
    apply Hiff. exists j, d'. repeat split; [exact Hlt | exact Hj|].
    rewrite Hnone. apply py_eq_none. exact Hd'.
Qed.

Lemma missing_product_id_two_keyless :
  Forall hashable_id two_keyless /\
  exists results ids',
    uniqueness_pass (map VDict two_keyless) ∅ = (Ret results, ids') /\
    KNone ∈ ids' /\
    results !! 0%nat = Some (RPair true (Text "")) /\
    results !! 1%nat = Some (RPair false (Text "Duplicate product_id: None")).
Proof.
  assert (Hall : Forall hashable_id two_keyless) by (repeat constructor; discriminate).
  split; [exact Hall|].
  destruct (missing_product_id_counts_as_none two_keyless Hall)
    as (_ & results & ids' & Hrun & Hidx).
  exists results, ids'. split; [exact Hrun|].
  destruct (Hidx 0%nat [("title", VStr "Pears")] eq_refl eq_refl) as (_ & Hin & H0 & _).
  destruct (Hidx 1%nat [("title", VStr "Plums")] eq_refl eq_refl) as (_ & _ & _ & H1).
  split; [exact Hin|]. split.
  - apply H0. intros j d' Hlt. lia.
  - apply H1. exists 0%nat, [("title", VStr "Pears")]. repeat split. lia.
Defined.

(** ** Exceptions *)

(** C4, at the failing input. The record is a mapping of string keys to JSON
    values; the presence, schema, image, URL and uniqueness checks pass, and
    the duplicate-image check raises TypeError when it looks the inner list
    up in its set. The orchestrator lets the exception through, after the
    identifier was added to the set, and the batch loop ends with it. *)
Theorem orchestrator_raises_on_unhashable_image :
  is_valid_product_data nested_images = RBool true /\
  validate_product_data_schema nested_images
    = Ret (RPair true (Text "Product data schema is valid.")) /\
  validate_image_data nested_images = Ret (RPair true (Text "")) /\
  validate_url_format nested_images = Ret (RPair true (Text "")) /\
  fst (validate_product_id_uniqueness nested_images ∅) = Ret (RPair true (Text "")) /\
  validate_duplicate_images nested_images = Raise TypeError /\
  validate_pdp_data nested_images ∅ = (Raise TypeError, {[ KNum 1 ]}) /\
  fst (run_batch [good 2; nested_images; good 3]) = Raise TypeError.
Proof. repeat split; vm_compute; f_equal. Qed.

Lemma filter_nil_false {A : Type} (f : A -> bool) (l : list A) (x : A) :
  List.filter f l = [] -> In x l -> f x = false.
Proof.
  induction l as [|y l IH]; simpl; [contradiction|].
  destruct (f y) eqn:Hy; [discriminate|].
  intros Hnil [<- | Hin]; [exact Hy | exact (IH Hnil Hin)].
Qed.

(** The types of the fields the later checks read, once the schema check has
    passed. *)
Lemma schema_pass_types (d : record) (why : reason) :
  validate_product_data_schema (VDict d) = Ret (RPair true why) ->
  (exists s, get d "image" = VStr s) /\
  (exists l, get d "images" = VList l) /\
  (exists u, get d "url" = VStr u) /\
  (exists a, as_atom (get d "product_id") = Some a).
Proof.
  intros H. unfold validate_product_data_schema in H. rewrite schema_loop_dict in H.
  revert H. run_bind. cbn [app].
  destruct (List.filter (violates d) expected_structure) eqn:Hbad; [intros _ | discriminate].
  assert (Hok : forall key cls, In (key, cls) expected_structure ->
            isinstance (get d key) cls = true).
  { intros key cls Hin. pose proof (filter_nil_false _ _ _ Hbad Hin) as Hv.
    unfold violates, absent, mistyped in Hv. cbn [fst snd] in Hv.
    destruct (has_key d key); [|discriminate Hv].
    destruct (isinstance (get d key) cls); [reflexivity | discriminate Hv]. }
  repeat apply conj.
  - assert (Hi : isinstance (get d "image") (Class TStr) = true)
      by (apply Hok; simpl; tauto).
    destruct (get d "image"); try discriminate Hi; eauto.
  - assert (Hi : isinstance (get d "images") (Class TList) = true)
      by (apply Hok; simpl; tauto).
    destruct (get d "images"); try discriminate Hi; eauto.
  - assert (Hi : isinstance (get d "url") (Class TStr) = true)
      by (apply Hok; simpl; tauto).
    destruct (get d "url"); try discriminate Hi; eauto.
  - assert (Hi : isinstance (get d "product_id") (Class TInt) = true)
      by (apply Hok; simpl; tauto).
    destruct (get d "product_id"); try discriminate Hi; simpl; eauto.
Qed.

Lemma orchestrator_returns (json_data : value) (product_ids : pyset) :
  hashable_images json_data ->
  exists ok why ids',
    validate_pdp_data json_data product_ids = (Ret (RPair ok why), ids').
Proof.
  intros Himgs. unfold validate_pdp_data.
  destruct json_data as [| | | | |d]; cbn [is_valid_product_data ret_truthy negb];
    try (eexists _, _, _; reflexivity).
  destruct (all_keys_present required_keys d); cbn [negb];
    [|eexists _, _, _; reflexivity].
  destruct (schema_returns d) as [r2 H2].
  destruct (schema_shape _ _ H2) as (ok2 & why2 & ->). rewrite H2. run_bind. cbn [unpack].
  destruct ok2; [|eexists _, _, _; reflexivity].
  destruct (schema_pass_types d why2 H2) as ([s Hs] & [l Hl] & [u Hu] & [a Ha]).
  destruct (image_returns d l Hl) as [r4 H4].
  destruct (image_shape _ _ H4) as (ok4 & why4 & ->).
  rewrite H4. run_bind. cbn [unpack].
  destruct ok4; [|eexists _, _, _; reflexivity].
  destruct (url_returns d u Hu) as [r5 H5].
  destruct (url_shape _ _ H5) as (ok5 & why5 & ->).
  rewrite H5. run_bind. cbn [unpack].
  destruct ok5; [|eexists _, _, _; reflexivity].
  destruct (uniqueness_returns d product_ids a Ha) as (r6 & ids' & H6).
  destruct (uniqueness_shape _ _ _ _ H6) as (ok6 & why6 & ->).
  rewrite H6. run_bind. cbn [unpack].
  destruct ok6; [|eexists _, _, _; reflexivity].
  destruct (duplicates_returns d l Hl (Himgs d l eq_refl Hl)) as [r7 H7].
  destruct (duplicates_shape _ _ H7) as (ok7 & why7 & ->).
  rewrite H7. run_bind. cbn [unpack].
  destruct ok7; eexists _, _, _; reflexivity.
Qed.

Lemma good_hashable_images (n : Z) : hashable_images (good n).
Proof.
  intros d l [= <-] [= <-]. repeat constructor. discriminate.
Qed.

Lemma batch_loop_returns (pdp_list : list value) :
  Forall hashable_images pdp_list ->
  forall index product_ids details,
  exists details' ids',
    batch_loop index pdp_list product_ids details = (Ret details', ids').
Proof.
  induction 1 as [|pdp_data rest Hh _ IH]; intros index ids details.
  - eexists _, _. reflexivity.
  - cbn [batch_loop].
    destruct (orchestrator_returns pdp_data ids Hh) as (ok & why & ids' & ->).
    run_bind. cbn [unpack]. apply IH.
Qed.

(** On every input whose images entries are hashable the orchestrator
    returns a pair and raises nothing, and on every batch of such inputs the
    batch loop runs to its end. *)
Theorem no_exception_with_hashable_images :
  (forall json_data product_ids, hashable_images json_data ->
     exists ok why ids',
       validate_pdp_data json_data product_ids = (Ret (RPair ok why), ids')) /\
  (forall pdp_list, Forall hashable_images pdp_list ->
     exists details ids', run_batch pdp_list = (Ret details, ids')) /\
  Forall hashable_images [good 1; good 2; good 1].
Proof.
  split; [exact orchestrator_returns|]. split.
  - intros pdp_list Hall. apply batch_loop_returns. exact Hall.
  - repeat constructor; apply good_hashable_images.
Qed.

(** * Further properties *)

(** ** Duplicate-image check *)

Lemma keys_of_cons (v : value) (a : atom) (l : list value) :
  as_atom v = Some a -> keys_of (v :: l) = atom_key a :: keys_of l.
Proof. intros Ha. unfold keys_of. cbn [omap list_omap]. rewrite Ha. reflexivity. Qed.

(** The loop runs through a prefix of distinct hashable entries that are new
    to the set, and goes on with their keys added. *)
Lemma duplicate_loop_prefix (pre rest : list value) (seen : pyset) :
  Forall (fun v => as_atom v <> None) pre ->
  NoDup (keys_of pre) ->
  (forall k, k ∈ keys_of pre -> k ∉ seen) ->
  duplicate_loop (pre ++ rest) seen
    = duplicate_loop rest (list_to_set (keys_of pre) ∪ seen).
Proof.
  intros Hall. revert seen. induction Hall as [|v pre Hv _ IH]; intros seen Hnd Hnew.
  - cbn [app]. f_equal. unfold keys_of. cbn [omap list_omap].
    rewrite list_to_set_nil, union_empty_l_L. reflexivity.
  - destruct (as_atom v) as [a|] eqn:Ha; [clear Hv | contradiction].
    rewrite (keys_of_cons _ _ _ Ha) in Hnd, Hnew.
    apply NoDup_cons in Hnd as [Hfresh Hnd].
    cbn [app duplicate_loop]. unfold hashable. rewrite Ha. run_bind.
    assert (set_mem seen a = false) as ->.
    { unfold set_mem. apply bool_decide_eq_false_2. apply Hnew. left. }
    rewrite IH; [| exact Hnd |].
    + f_equal. rewrite (keys_of_cons _ _ _ Ha). unfold set_add.
      rewrite list_to_set_cons, !union_assoc_L.
      rewrite (union_comm_L (list_to_set (keys_of pre)) {[atom_key a]}). reflexivity.
    + intros k Hk. unfold set_add. intros [Hin|Hin]%elem_of_union.
      * apply elem_of_singleton in Hin as ->. contradiction.
      * apply (Hnew k); [right; exact Hk | exact Hin].
Qed.

Lemma split_at (l : list value) (i : nat) (v : value) :
  l !! i = Some v -> l = take i l ++ v :: drop (S i) l.
Proof. intros Hi. symmetry. apply take_drop_middle. exact Hi. Qed.

Lemma duplicate_images_list (d : record) (l : list value) :
  get d "images" = VList l ->
  validate_duplicate_images (VDict d) = duplicate_loop l ∅.
Proof.
  intros Hl. unfold validate_duplicate_images. cbn [dot_get]. run_bind.
  rewrite Hl. destruct l; reflexivity.
Qed.

(** The duplicate-image check on a record. It passes when images is absent,
    null or empty. On an images list it looks at the entries in order: it
    stops at the first entry that equals an earlier one and fails with
    "Duplicate image URL: <entry>"; it raises TypeError at the first entry
    that is a list or a dictionary, if no duplicate came before; and it
    passes with an empty reason when all entries are hashable and distinct. *)
Theorem validate_duplicate_images_contract (d : record) :
  (truthy (get d "images") = false ->
     validate_duplicate_images (VDict d) = Ret (RPair true (Text ""))) /\
  (forall l, get d "images" = VList l ->
     (Forall (fun v => as_atom v <> None) l -> NoDup (keys_of l) ->
        validate_duplicate_images (VDict d) = Ret (RPair true (Text ""))) /\
     (forall (i : nat) v a,
        l !! i = Some v -> as_atom v = Some a ->
        Forall (fun v => as_atom v <> None) (take i l) ->
        NoDup (keys_of (take i l)) ->
        atom_key a ∈ keys_of (take i l) ->
        validate_duplicate_images (VDict d)
          = Ret (RPair false (Text ("Duplicate image URL: " ++ atom_str a)))) /\
     (forall (i : nat) v,
        l !! i = Some v -> as_atom v = None ->
        Forall (fun v => as_atom v <> None) (take i l) ->
        NoDup (keys_of (take i l)) ->
        validate_duplicate_images (VDict d) = Raise TypeError)).
Proof.
  split.
  - intros H. unfold validate_duplicate_images. cbn [dot_get]. run_bind.
    rewrite H. reflexivity.
  - intros l Hl. rewrite (duplicate_images_list d l Hl). repeat apply conj.
    + intros Hall Hnd. rewrite <- (app_nil_r l).
      rewrite duplicate_loop_prefix;
        [reflexivity | exact Hall | exact Hnd | intros k _; apply not_elem_of_empty].
    + intros i v a Hi Ha Hall Hnd Hdup. rewrite (split_at l i v Hi).
      rewrite duplicate_loop_prefix;
        [| exact Hall | exact Hnd | intros k _; apply not_elem_of_empty].
      cbn [duplicate_loop]. unfold hashable. rewrite Ha. run_bind.
      assert (set_mem (list_to_set (keys_of (take i l)) ∪ ∅) a = true) as ->;
        [|reflexivity].
      unfold set_mem. apply bool_decide_eq_true_2.
      apply elem_of_union. left. apply elem_of_list_to_set. exact Hdup.
    + intros i v Hi Ha Hall Hnd. rewrite (split_at l i v Hi).
      rewrite duplicate_loop_prefix;
        [| exact Hall | exact Hnd | intros k _; apply not_elem_of_empty].
      cbn [duplicate_loop]. unfold hashable. rewrite Ha. reflexivity.
Qed.

(** ** The orchestrator, check by check *)

Lemma schema_ok_filter (d : record) :
  schema_ok d = true <-> List.filter (violates d) expected_structure = [].
Proof.
  unfold schema_ok. generalize expected_structure. intros items.
  induction items as [|item items IH]; cbn [forallb List.filter]; [tauto|].
  destruct (violates d item); cbn [negb andb]; [split; discriminate | exact IH].
Qed.

Lemma schema_ok_fields (d : record) :
  schema_ok d = true <->
  forall key cls, In (key, cls) expected_structure ->
    has_key d key = true /\ isinstance (get d key) cls = true.
Proof.
  unfold schema_ok. rewrite forallb_forall. split.
  - intros H key cls Hin. specialize (H _ Hin).
    unfold violates, absent, mistyped in H. cbn [fst snd] in H.
    destruct (has_key d key); [|discriminate H].
    destruct (isinstance (get d key) cls); [auto | discriminate H].
  - intros H [key cls] Hin. destruct (H key cls Hin) as [Hk Hi].
    unfold violates, absent, mistyped. cbn [fst snd]. rewrite Hk, Hi. reflexivity.
Qed.

Lemma schema_value (d : record) :
  validate_product_data_schema (VDict d) =
    Ret (if schema_ok d then RPair true (Text "Product data schema is valid.")
         else RPair false
                (Texts (map (violation_message d)
                          (List.filter (violates d) expected_structure)))).
Proof.
  unfold validate_product_data_schema. rewrite schema_loop_dict. run_bind. cbn [app].
  destruct (schema_ok d) eqn:Hok.
  - apply schema_ok_filter in Hok. rewrite Hok. reflexivity.
  - destruct (List.filter (violates d) expected_structure) eqn:Hbad; [|reflexivity].
    apply schema_ok_filter in Hbad. congruence.
Qed.

(** The types of the fields read after the schema check. *)
Lemma schema_ok_types (d : record) :
  schema_ok d = true ->
  exists s l u a n,
    get d "image" = VStr s /\ get d "images" = VList l /\ get d "url" = VStr u /\
    as_atom (get d "product_id") = Some a /\ atom_key a = KNum n.
Proof.
  intros Hok. pose proof (proj1 (schema_ok_fields d) Hok) as Hf.
  assert (H1 : isinstance (get d "image") (Class TStr) = true)
    by (apply Hf; simpl; tauto).
  assert (H2 : isinstance (get d "images") (Class TList) = true)
    by (apply Hf; simpl; tauto).
  assert (H3 : isinstance (get d "url") (Class TStr) = true)
    by (apply Hf; simpl; tauto).
  assert (H4 : isinstance (get d "product_id") (Class TInt) = true)
    by (apply Hf; simpl; tauto).
  destruct (get d "image") as [| | |s| |]; try discriminate H1.
  destruct (get d "images") as [| | | |l|]; try discriminate H2.
  destruct (get d "url") as [| | |u| |]; try discriminate H3.
  destruct (get d "product_id") as [|b|n| | |]; try discriminate H4.
  - exists s, l, u, (ABool b), (if b then 1 else 0). auto.
  - exists s, l, u, (AInt n), n. auto.
Qed.

(** The seven required keys are among the fields of the expected structure. *)
Lemma schema_ok_presence (d : record) :
  schema_ok d = true -> all_keys_present required_keys d = true.
Proof.
  intros Hok. pose proof (proj1 (schema_ok_fields d) Hok) as Hf.
  rewrite all_keys_present_forallb. apply forallb_forall. intros key Hin.
  simpl in Hin.
  repeat (destruct Hin as [<- | Hin];
          [eapply proj1; apply Hf; simpl; tauto|]).
  contradiction.
Qed.

Lemma image_on_list (d : record) (s : string) (l : list value) :
  get d "image" = VStr s -> get d "images" = VList l ->
  validate_image_data (VDict d) =
    Ret (if existsb is_http_string l then RPair true (Text "")
         else RPair false (Text "Images list should contain at least one URL")).
Proof.
  intros Hs Hl. unfold validate_image_data. cbn [dot_get]. run_bind.
  rewrite Hs, Hl. cbn [is_none]. destruct l as [|v l]; [reflexivity|].
  cbn [truthy negb py_iter]. run_bind.
  destruct (existsb is_http_string (v :: l)); reflexivity.
Qed.

Lemma url_on_string (d : record) (u : string) :
  get d "url" = VStr u ->
  validate_url_format (VDict d) =
    Ret (if re_match url_pattern u then RPair true (Text "")
         else RPair false
                (Text "URL should be in standardized format (e.g., http://example.com)")).
Proof.
  intros Hu. unfold validate_url_format. cbn [dot_get]. run_bind.
  rewrite Hu. cbn [is_none negb]. destruct (re_match url_pattern u); reflexivity.
Qed.

Lemma orchestrator_after_schema (d : record) (s : string) (l : list value)
    (u : string) (a : atom) (product_ids : pyset) :
  schema_ok d = true ->
  get d "image" = VStr s -> get d "images" = VList l -> get d "url" = VStr u ->
  as_atom (get d "product_id") = Some a ->
  validate_pdp_data (VDict d) product_ids = after_schema l u a product_ids.
Proof.
  intros Hok Hs Hl Hu Ha. unfold validate_pdp_data, after_schema.
  cbn [is_valid_product_data ret_truthy]. rewrite (schema_ok_presence d Hok).
  rewrite schema_value, Hok, (image_on_list d s l Hs Hl), (url_on_string d u Hu).
  rewrite (uniqueness_step d a product_ids Ha), (duplicate_images_list d l Hl).
  cbn [negb]. run_bind. cbn [unpack].
  destruct (existsb is_http_string l); cbn [negb]; [|reflexivity].
  destruct (re_match url_pattern u); cbn [negb]; [|reflexivity].
  unfold uniqueness_result.
  destruct (set_mem product_ids a) eqn:Hmem.
  - rewrite (set_add_member _ _ Hmem). reflexivity.
  - destruct (duplicate_loop l ∅) as [[b|[] why]|e]; reflexivity.
Qed.

Lemma orchestrator_schema_failure (d : record) (product_ids : pyset) :
  all_keys_present required_keys d = true -> schema_ok d = false ->
  validate_pdp_data (VDict d) product_ids =
    (Ret (RPair false
            (Texts (map (violation_message d)
                      (List.filter (violates d) expected_structure)))),
     product_ids).
Proof.
  intros Hp Hok. unfold validate_pdp_data. cbn [is_valid_product_data ret_truthy].
  rewrite Hp, schema_value, Hok. reflexivity.
Qed.

Lemma orchestrator_structure_failure (json_data : value) (product_ids : pyset) :
  is_valid_product_data json_data = RBool false ->
  validate_pdp_data json_data product_ids =
    (Ret (RPair false (Text "Invalid product data structure")), product_ids).
Proof. intros H. unfold validate_pdp_data. rewrite H. reflexivity. Qed.

Lemma duplicate_loop_pass_inv (l : list value) (seen : pyset) (why : reason) :
  duplicate_loop l seen = Ret (RPair true why) ->
  Forall (fun v => as_atom v <> None) l /\ NoDup (keys_of l) /\
  (forall k, k ∈ keys_of l -> k ∉ seen).
Proof.
  revert seen. induction l as [|v l IH]; intros seen; cbn [duplicate_loop].
  - intros _. repeat split; [constructor | constructor |].
    intros k Hk. unfold keys_of in Hk. cbn in Hk. apply elem_of_nil in Hk. contradiction.
  - unfold hashable. destruct (as_atom v) as [a|] eqn:Ha; run_bind; [|discriminate].
    destruct (set_mem seen a) eqn:Hmem; [discriminate|].
    intros H. destruct (IH _ H) as (Hall & Hnd & Hnew).
    unfold set_mem in Hmem. apply bool_decide_eq_false in Hmem.
    rewrite (keys_of_cons _ _ _ Ha). repeat split.
    + constructor; [congruence | exact Hall].
    + apply NoDup_cons. split; [|exact Hnd].
      intros Hin. apply (Hnew _ Hin). unfold set_add. apply elem_of_union. left.
      apply elem_of_singleton. reflexivity.
    + intros k [-> | Hk]%elem_of_cons; [exact Hmem|].
      intros Hin. apply (Hnew _ Hk). unfold set_add. apply elem_of_union. right. exact Hin.
Qed.

Lemma duplicate_loop_distinct (l : list value) :
  Forall (fun v => as_atom v <> None) l -> NoDup (keys_of l) ->
  duplicate_loop l ∅ = Ret (RPair true (Text "")).
Proof.
  intros Hall Hnd. rewrite <- (app_nil_r l).
  rewrite duplicate_loop_prefix;
    [reflexivity | exact Hall | exact Hnd | intros k _; apply not_elem_of_empty].
Qed.

(** ** Which records the orchestrator accepts *)

(** The orchestrator returns (True, reason) exactly when the input is a
    dictionary in which every field of the expected structure is present with
    its expected type, the images list holds a string that starts with
    "http", the url matches the pattern, the product_id is not in the set of
    seen identifiers, and the entries of images are hashable and pairwise
    distinct. The reason is then "Product data is valid" and the set gains
    the product_id. *)
Theorem accepted_exactly (json_data : value) (product_ids : pyset)
    (why : reason) (ids' : pyset) :
  validate_pdp_data json_data product_ids = (Ret (RPair true why), ids') <->
  why = Text "Product data is valid" /\
  exists d l u a,
    json_data = VDict d /\
    (forall key cls, In (key, cls) expected_structure ->
       has_key d key = true /\ isinstance (get d key) cls = true) /\
    get d "images" = VList l /\
    (exists img, In img l /\ is_http_string img = true) /\
    get d "url" = VStr u /\ re_match url_pattern u = true /\
    as_atom (get d "product_id") = Some a /\ (atom_key a ∉ product_ids) /\
    Forall (fun v => as_atom v <> None) l /\ NoDup (keys_of l) /\
    ids' = {[ atom_key a ]} ∪ product_ids.
Proof.
  split.
  - intros H.
    destruct (is_valid_product_data json_data) as [[]|] eqn:Hp.
    + destruct json_data as [| | | | |d]; try discriminate Hp.
      cbn [is_valid_product_data] in Hp. injection Hp as Hp.
      destruct (schema_ok d) eqn:Hok.
      * destruct (schema_ok_types d Hok) as (s & l & u & a & n & Hs & Hl & Hu & Ha & _).
        rewrite (orchestrator_after_schema d s l u a _ Hok Hs Hl Hu Ha) in H.
        unfold after_schema in H.
        destruct (existsb is_http_string l) eqn:Himg; cbn [negb] in H; [|discriminate H].
        destruct (re_match url_pattern u) eqn:Hre; cbn [negb] in H; [|discriminate H].
        destruct (set_mem product_ids a) eqn:Hmem; [discriminate H|].
        destruct (duplicate_loop l ∅) as [[b|[] w]|e] eqn:Hdup; try discriminate H.
        injection H as <- <-. split; [reflexivity|].
        destruct (duplicate_loop_pass_inv _ _ _ Hdup) as (Hall & Hnd & _).
        apply existsb_exists in Himg.
        unfold set_mem in Hmem. apply bool_decide_eq_false in Hmem.
        exists d, l, u, a.
        split; [reflexivity|]. split; [exact (proj1 (schema_ok_fields d) Hok)|].
        auto 12.
      * rewrite (orchestrator_schema_failure d _ Hp Hok) in H. discriminate H.
    + rewrite (orchestrator_structure_failure _ _ Hp) in H. discriminate H.
    + destruct json_data; discriminate Hp.
  - intros (-> & d & l & u & a & -> & Hf & Hl & Himg & Hu & Hre & Ha & Hnew & Hall & Hnd & ->).
    assert (Hok : schema_ok d = true) by (apply schema_ok_fields; exact Hf).
    destruct (schema_ok_types d Hok) as (s & l' & u' & a' & n & Hs & Hl' & Hu' & Ha' & _).
    rewrite (orchestrator_after_schema d s l u a _ Hok Hs Hl Hu Ha).
    unfold after_schema.
    assert (existsb is_http_string l = true) as -> by (apply existsb_exists; exact Himg).
    rewrite Hre. cbn [negb].
    assert (set_mem product_ids a = false) as ->
      by (unfold set_mem; apply bool_decide_eq_false_2; exact Hnew).
    rewrite (duplicate_loop_distinct l Hall Hnd). reflexivity.
Qed.

(** The three ways through the orchestrator. *)
Lemma orchestrator_cases (json_data : value) (product_ids : pyset) :
  (is_valid_product_data json_data = RBool false /\
   validate_pdp_data json_data product_ids =
     (Ret (RPair false (Text "Invalid product data structure")), product_ids)) \/
  (exists d msg msgs, json_data = VDict d /\ schema_ok d = false /\
     validate_pdp_data json_data product_ids =
       (Ret (RPair false (Texts (msg :: msgs))), product_ids)) \/
  (exists d s l u a n, json_data = VDict d /\ schema_ok d = true /\
     get d "image" = VStr s /\ get d "images" = VList l /\ get d "url" = VStr u /\
     as_atom (get d "product_id") = Some a /\ atom_key a = KNum n /\
     validate_pdp_data json_data product_ids = after_schema l u a product_ids).
Proof.
  destruct (is_valid_product_data json_data) as [[]|] eqn:Hp.
  - destruct json_data as [| | | | |d]; try discriminate Hp.
    cbn [is_valid_product_data] in Hp. injection Hp as Hp.
    destruct (schema_ok d) eqn:Hok.
    + right. right.
      destruct (schema_ok_types d Hok) as (s & l & u & a & n & Hs & Hl & Hu & Ha & Hn).
      exists d, s, l, u, a, n.
      rewrite (orchestrator_after_schema d s l u a _ Hok Hs Hl Hu Ha). auto 10.
    + right. left. rewrite (orchestrator_schema_failure d _ Hp Hok).
      destruct (List.filter (violates d) expected_structure) as [|item bad] eqn:Hbad.
      * apply schema_ok_filter in Hbad. congruence.
      * exists d, (violation_message d item), (map (violation_message d) bad).
        split; [reflexivity|]. split; [exact Hok | reflexivity].
  - left. split; [reflexivity|]. apply orchestrator_structure_failure. exact Hp.
  - destruct json_data; discriminate Hp.
Qed.

Lemma duplicate_loop_reason (l : list value) (seen : pyset) (why : reason) :
  duplicate_loop l seen = Ret (RPair false why) ->
  exists a, why = Text ("Duplicate image URL: " ++ atom_str a).
Proof.
  revert seen. induction l as [|v l IH]; intros seen; cbn [duplicate_loop].
  - discriminate.
  - unfold hashable. destruct (as_atom v) as [a|]; run_bind; [|discriminate].
    destruct (set_mem seen a); [|apply IH].
    intros [= <-]. exists a. reflexivity.
Qed.

(** ** The reasons of a rejection *)

(** When the orchestrator rejects an input, the reason is one of six: the
    fixed text of the presence check, the non-empty list of messages of the
    schema check, the text of the image check about the images list, the text
    of the URL check, "Duplicate product_id: <id>", or "Duplicate image URL:
    <entry>". The set of seen identifiers is unchanged except in the last
    case, where the product_id has been added. The reason "Image key cannot
    be null" of the image check is never reported: a null or missing image
    is reported by the schema check before. *)
Theorem rejection_reasons (json_data : value) (product_ids : pyset)
    (why : reason) (ids' : pyset) :
  validate_pdp_data json_data product_ids = (Ret (RPair false why), ids') ->
  ((why = Text "Invalid product data structure" /\ ids' = product_ids) \/
   (exists msg msgs, why = Texts (msg :: msgs) /\ ids' = product_ids) \/
   (why = Text "Images list should contain at least one URL" /\ ids' = product_ids) \/
   (why = Text "URL should be in standardized format (e.g., http://example.com)"
    /\ ids' = product_ids) \/
   (exists a, why = Text ("Duplicate product_id: " ++ atom_str a)
              /\ atom_key a ∈ product_ids /\ ids' = product_ids) \/
   (exists a b, why = Text ("Duplicate image URL: " ++ atom_str b)
                /\ (atom_key a ∉ product_ids)
                /\ ids' = {[ atom_key a ]} ∪ product_ids)) /\
  why <> Text "Image key cannot be null".
Proof.
  intros H.
  assert (Hcases :
    (why = Text "Invalid product data structure" /\ ids' = product_ids) \/
    (exists msg msgs, why = Texts (msg :: msgs) /\ ids' = product_ids) \/
    (why = Text "Images list should contain at least one URL" /\ ids' = product_ids) \/
    (why = Text "URL should be in standardized format (e.g., http://example.com)"
     /\ ids' = product_ids) \/
    (exists a, why = Text ("Duplicate product_id: " ++ atom_str a)
               /\ atom_key a ∈ product_ids /\ ids' = product_ids) \/
    (exists a b, why = Text ("Duplicate image URL: " ++ atom_str b)
                 /\ (atom_key a ∉ product_ids)
                 /\ ids' = {[ atom_key a ]} ∪ product_ids)).
  { destruct (orchestrator_cases json_data product_ids)
      as [[_ E] | [(d & msg & msgs & _ & _ & E) |
          (d & s & l & u & a & n & _ & _ & _ & _ & _ & _ & _ & E)]];
      rewrite E in H.
    - injection H as <- <-. auto.
    - injection H as <- <-. right. left. eauto.
    - unfold after_schema in H.
      destruct (existsb is_http_string l); cbn [negb] in H;
        [|injection H as <- <-; auto].
      destruct (re_match url_pattern u); cbn [negb] in H;
        [|injection H as <- <-; auto 6].
      destruct (set_mem product_ids a) eqn:Hmem.
      + injection H as <- <-. do 4 right. left. exists a.
        unfold set_mem in Hmem. apply bool_decide_eq_true in Hmem. auto.
      + destruct (duplicate_loop l ∅) as [[b|[] w]|e] eqn:Hdup; try discriminate H.
        injection H as <- <-. do 5 right.
        destruct (duplicate_loop_reason _ _ _ Hdup) as [b ->].
        unfold set_mem in Hmem. apply bool_decide_eq_false in Hmem.
        exists a, b. auto. }
  split; [exact Hcases|].
  destruct Hcases as [[-> _] | [(msg & msgs & -> & _) | [[-> _] | [[-> _] |
    [(a & -> & _) | (a & b & -> & _)]]]]]; cbv [String.append]; discriminate.
Qed.

Lemma rejection_reasons_twice_imaged :
  validate_pdp_data twice_imaged ∅
    = (Ret (RPair false (Text "Duplicate image URL: http://img/4.jpg")), {[ KNum 4 ]}) /\
  Text "Duplicate image URL: http://img/4.jpg" <> Text "Image key cannot be null".
Proof.
  assert (H : validate_pdp_data twice_imaged ∅
    = (Ret (RPair false (Text "Duplicate image URL: http://img/4.jpg")), {[ KNum 4 ]}))
    by (vm_compute; f_equal).
  split; [exact H|]. exact (proj2 (rejection_reasons _ _ _ _ H)).
Defined.

(** ** Presence check and schema check *)

(** Each of the seven required keys is a field of the expected structure, so
    a record that passes the schema check passes the structural presence
    check as well; a record that fails the presence check gets, from the
    schema check, the missing-key message of each required key it lacks. *)
Theorem schema_subsumes_presence (d : record) :
  (forall key, In key required_keys -> exists cls, In (key, cls) expected_structure) /\
  (forall why, validate_product_data_schema (VDict d) = Ret (RPair true why) ->
     is_valid_product_data (VDict d) = RBool true) /\
  (is_valid_product_data (VDict d) = RBool false ->
     exists key msgs,
       In key required_keys /\ has_key d key = false /\
       validate_product_data_schema (VDict d) = Ret (RPair false (Texts msgs)) /\
       In (missing_message key) msgs).
Proof.
  split; [|split].
  - intros key Hin. simpl in Hin.
    repeat (destruct Hin as [<- | Hin]; [eexists; simpl; tauto|]). contradiction.
  - intros why H. rewrite schema_value in H.
    destruct (schema_ok d) eqn:Hok; [|discriminate H].
    cbn [is_valid_product_data]. rewrite (schema_ok_presence d Hok). reflexivity.
  - cbn [is_valid_product_data]. intros Hp.
    assert (Hkey : exists key, In key required_keys /\ has_key d key = false).
    { rewrite all_keys_present_forallb in Hp.
      destruct (forallb (has_key d) required_keys) eqn:E; [discriminate Hp|].
      clear Hp. revert E. generalize required_keys. intros keys.
      induction keys as [|key keys IH]; cbn [forallb]; [discriminate|].
      destruct (has_key d key) eqn:Hk; cbn [andb].
      - intros E. destruct (IH E) as (k & Hin & Hk'). exists k. split; [right|]; auto.
      - intros _. exists key. split; [left|]; auto. }
    destruct Hkey as (key & Hin & Hk).
    assert (Hcls : exists cls, In (key, cls) expected_structure).
    { simpl in Hin.
      repeat (destruct Hin as [<- | Hin]; [eexists; simpl; tauto|]). contradiction. }
    destruct Hcls as [cls Hcls].
    assert (Hv : violates d (key, cls) = true)
      by (unfold violates, absent; cbn [fst]; rewrite Hk; reflexivity).
    assert (Hbad : In (key, cls) (List.filter (violates d) expected_structure))
      by (apply filter_In; auto).
    assert (Hok : schema_ok d = false).
    { destruct (schema_ok d) eqn:Hok; [|reflexivity].
      apply schema_ok_filter in Hok. rewrite Hok in Hbad. contradiction. }
    exists key, (map (violation_message d) (List.filter (violates d) expected_structure)).
    rewrite schema_value, Hok. repeat split; auto.
    apply in_map_iff. exists (key, cls). split; [|exact Hbad].
    unfold violation_message, absent. cbn [fst]. rewrite Hk. reflexivity.
Qed.

(** ** The set of seen identifiers *)

Lemma after_schema_ids (l : list value) (u : string) (a : atom) (product_ids : pyset) :
  snd (after_schema l u a product_ids) = product_ids \/
  (set_mem product_ids a = false /\
   existsb is_http_string l = true /\ re_match url_pattern u = true /\
   snd (after_schema l u a product_ids) = {[ atom_key a ]} ∪ product_ids).
Proof.
  unfold after_schema.
  destruct (existsb is_http_string l); cbn [negb]; [|auto].
  destruct (re_match url_pattern u); cbn [negb]; [|auto].
  destruct (set_mem product_ids a); [auto|]. right.
  destruct (duplicate_loop l ∅) as [[b|[] w]|e]; auto.
Qed.

(** What one call of the orchestrator does to the set. *)
Lemma orchestrator_ids (json_data : value) (product_ids : pyset) :
  snd (validate_pdp_data json_data product_ids) = product_ids \/
  exists d s l u a n,
    json_data = VDict d /\ schema_ok d = true /\ get d "image" = VStr s /\
    get d "images" = VList l /\ get d "url" = VStr u /\
    as_atom (get d "product_id") = Some a /\ atom_key a = KNum n /\
    (KNum n ∉ product_ids) /\
    existsb is_http_string l = true /\ re_match url_pattern u = true /\
    snd (validate_pdp_data json_data product_ids) = {[ KNum n ]} ∪ product_ids.
Proof.
  destruct (orchestrator_cases json_data product_ids)
    as [[_ E] | [(d & msg & msgs & _ & _ & E) |
        (d & s & l & u & a & n & -> & Hok & Hs & Hl & Hu & Ha & Hn & E)]];
    [rewrite E; left; reflexivity | rewrite E; left; reflexivity |].
  destruct (after_schema_ids l u a product_ids) as [Hsame | (Hmem & Himg & Hre & Hadd)].
  - left. rewrite E. exact Hsame.
  - right. exists d, s, l, u, a, n. rewrite E, Hadd, Hn.
    unfold set_mem in Hmem. apply bool_decide_eq_false in Hmem. rewrite Hn in Hmem.
    repeat (split; [assumption || reflexivity|]). reflexivity.
Qed.

Lemma batch_loop_ids (pdp_list : list value) :
  forall index product_ids details k,
    k ∈ snd (batch_loop index pdp_list product_ids details) ->
    k ∈ product_ids \/
    exists n d a,
      k = KNum n /\ In (VDict d) pdp_list /\
      as_atom (get d "product_id") = Some a /\ atom_key a = KNum n.
Proof.
  induction pdp_list as [|json rest IH]; intros index ids details k; cbn [batch_loop].
  - auto.
  - destruct (validate_pdp_data json ids) as [res ids1] eqn:E.
    assert (Hids1 : k ∈ ids1 -> k ∈ ids \/
              exists n d a, k = KNum n /\ In (VDict d) (json :: rest) /\
                as_atom (get d "product_id") = Some a /\ atom_key a = KNum n).
    { pose proof (orchestrator_ids json ids) as Hc. rewrite E in Hc. cbn [snd] in Hc.
      destruct Hc as [-> | (d & s & l & u & a & n & -> & _ & _ & _ & _ & Ha & Hn & _ & _ & _ & ->)];
        [auto|].
      intros [Hk | Hk]%elem_of_union; [|auto].
      apply elem_of_singleton in Hk as ->. right. exists n, d, a.
      repeat split; auto. left. reflexivity. }
    destruct res as [[b|ok why]|e]; run_bind; cbn [unpack snd]; try exact Hids1.
    intros Hk. destruct (IH _ _ _ _ Hk) as [Hk1 | (n & d & a & -> & Hin & Ha & Hn)].
    + exact (Hids1 Hk1).
    + right. exists n, d, a. repeat split; auto. right. exact Hin.
Qed.

(** The orchestrator never removes an identifier from the set: the set it
    leaves is the one it got, or that set with the record's product_id (an
    integer or a boolean, stored as a number) added. After a whole batch,
    started on the empty set, every element of the set is the numeric
    product_id of some record of the batch. *)
Theorem seen_ids_invariant :
  (forall json_data product_ids,
     product_ids ⊆ snd (validate_pdp_data json_data product_ids) /\
     (snd (validate_pdp_data json_data product_ids) = product_ids \/
      exists d a n,
        json_data = VDict d /\ as_atom (get d "product_id") = Some a /\
        atom_key a = KNum n /\ (KNum n ∉ product_ids) /\
        snd (validate_pdp_data json_data product_ids) = {[ KNum n ]} ∪ product_ids)) /\
  (forall pdp_list k,
     k ∈ snd (run_batch pdp_list) ->
     exists n d a,
       k = KNum n /\ In (VDict d) pdp_list /\
       as_atom (get d "product_id") = Some a /\ atom_key a = KNum n).
Proof.
  split.
  - intros json ids.
    destruct (orchestrator_ids json ids)
      as [E | (d & s & l & u & a & n & -> & _ & _ & _ & _ & Ha & Hn & Hnew & _ & _ & E)];
      rewrite E.
    + split; [reflexivity | left; reflexivity].
    + split; [apply union_subseteq_r|]. right. exists d, a, n. auto.
  - intros pdp_list k Hk. unfold run_batch in Hk.
    destruct (batch_loop_ids _ _ _ _ _ Hk) as [Hin | H]; [|exact H].
    apply elem_of_empty in Hin. contradiction.
Qed.

(** ** Validating the same input again *)

(** Whenever a call of the orchestrator changed the set of seen identifiers
    (it accepted the record, or it rejected it or raised only in the
    duplicate-image check), a second call on the same input and the new set
    answers (False, "Duplicate product_id: <id>") and leaves the set as it
    is. *)
Theorem registered_id_blocks_revalidation (json_data : value) (product_ids : pyset) :
  snd (validate_pdp_data json_data product_ids) <> product_ids ->
  exists d a,
    json_data = VDict d /\ as_atom (get d "product_id") = Some a /\
    snd (validate_pdp_data json_data product_ids) = {[ atom_key a ]} ∪ product_ids /\
    validate_pdp_data json_data (snd (validate_pdp_data json_data product_ids))
      = (Ret (RPair false (Text ("Duplicate product_id: " ++ atom_str a))),
         snd (validate_pdp_data json_data product_ids)).
Proof.
  intros Hchanged.
  destruct (orchestrator_ids json_data product_ids)
    as [E | (d & s & l & u & a & n & -> & Hok & Hs & Hl & Hu & Ha & Hn & Hnew & Himg & Hre & E)];
    [contradiction|].
  exists d, a. rewrite E, Hn.
  split; [reflexivity|]. split; [exact Ha|]. split; [reflexivity|].
  rewrite (orchestrator_after_schema d s l u a _ Hok Hs Hl Hu Ha).
  unfold after_schema. rewrite Himg, Hre. cbn [negb].
  assert (set_mem ({[KNum n]} ∪ product_ids) a = true) as ->; [|reflexivity].
  unfold set_mem. apply bool_decide_eq_true_2. rewrite Hn.
  apply elem_of_union. left. apply elem_of_singleton. reflexivity.
Qed.

Lemma registered_id_blocks_revalidation_twice_imaged :
  snd (validate_pdp_data twice_imaged ∅) <> ∅ /\
  exists d a,
    twice_imaged = VDict d /\ as_atom (get d "product_id") = Some a /\
    snd (validate_pdp_data twice_imaged ∅) = {[ atom_key a ]} ∪ ∅ /\
    validate_pdp_data twice_imaged (snd (validate_pdp_data twice_imaged ∅))
      = (Ret (RPair false (Text ("Duplicate product_id: " ++ atom_str a))),
         snd (validate_pdp_data twice_imaged ∅)).
Proof.
  assert (H : snd (validate_pdp_data twice_imaged ∅) <> ∅).
  { assert (snd (validate_pdp_data twice_imaged ∅) = {[ KNum 4 ]}) as ->
      by (vm_compute; f_equal).
    apply non_empty_singleton_L. }
  split; [exact H|]. exact (registered_id_blocks_revalidation twice_imaged ∅ H).
Defined.

(** ** The batch loop on records that are valid on their own *)

(** On a record that is valid on its own the orchestrator is the uniqueness
    check, with the success message of the orchestrator. *)
Lemma valid_alone_step (d : record) :
  valid_alone d ->
  exists a,
    as_atom (get d "product_id") = Some a /\
    forall product_ids,
      validate_pdp_data (VDict d) product_ids =
        (Ret (if set_mem product_ids a
              then RPair false (Text ("Duplicate product_id: " ++ atom_str a))
              else RPair true (Text "Product data is valid")),
         set_add product_ids a).
Proof.
  intros (why & ids' & H).
  destruct (orchestrator_cases (VDict d) ∅)
    as [[_ E] | [(d' & msg & msgs & _ & _ & E) |
        (d' & s & l & u & a & n & [= <-] & Hok & Hs & Hl & Hu & Ha & _ & E)]];
    rewrite E in H; try discriminate H.
  unfold after_schema in H.
  destruct (existsb is_http_string l) eqn:Himg; cbn [negb] in H; [|discriminate H].
  destruct (re_match url_pattern u) eqn:Hre; cbn [negb] in H; [|discriminate H].
  destruct (set_mem ∅ a); [discriminate H|].
  destruct (duplicate_loop l ∅) as [[b|[] w]|e] eqn:Hdup; try discriminate H.
  exists a. split; [exact Ha|]. intros ids.
  rewrite (orchestrator_after_schema d s l u a ids Hok Hs Hl Hu Ha).
  unfold after_schema. rewrite Himg, Hre, Hdup. cbn [negb].
  destruct (set_mem ids a) eqn:Hmem; [|reflexivity].
  rewrite (set_add_member _ _ Hmem). reflexivity.
Qed.

Lemma valid_alone_hashable (batch : list record) :
  Forall valid_alone batch -> Forall hashable_id batch.
Proof.
  intros Hall. eapply Forall_impl; [exact Hall|]. intros d Hd.
  destruct (valid_alone_step d Hd) as (a & Ha & _). unfold hashable_id. congruence.
Qed.

Lemma batch_loop_valid_alone (batch : list record) :
  Forall valid_alone batch ->
  forall index product_ids details,
  exists added,
    batch_loop index (map VDict batch) product_ids details
      = (Ret (details ++ added), seen_after batch product_ids) /\
    (forall n why,
       (n, why) ∈ added <->
       exists (i : nat) d a,
         n = (index + i)%nat /\ batch !! i = Some d /\
         as_atom (get d "product_id") = Some a /\
         atom_key a ∈ seen_after (take i batch) product_ids /\
         why = Text ("Duplicate product_id: " ++ atom_str a)) /\
    Forall (le index) (map fst added) /\
    StronglySorted lt (map fst added).
Proof.
  induction 1 as [|d rest Hd _ IH]; intros index ids details.
  - exists []. rewrite app_nil_r. split; [reflexivity|]. split; [|split; constructor].
    intros n why. split.
    + intros Hin. apply elem_of_nil in Hin. contradiction.
    + intros (i & d & a & _ & Hi & _). rewrite lookup_nil in Hi. discriminate.
  - destruct (valid_alone_step d Hd) as (a0 & Ha0 & Hstep).
    cbn [map batch_loop seen_after]. rewrite Hstep, Ha0.
    destruct (set_mem ids a0) eqn:Hmem; run_bind; cbn [unpack negb].
    + destruct (IH (S index) (set_add ids a0)
                  (details ++ [(index, Text ("Duplicate product_id: " ++ atom_str a0))]))
        as (added & Hrun & Hchar & Hge & Hsorted).
      exists ((index, Text ("Duplicate product_id: " ++ atom_str a0)) :: added).
      rewrite Hrun, <- app_assoc. split; [reflexivity|]. split; [|split].
      * intros n why. rewrite elem_of_cons, Hchar. split.
        -- intros [[= -> ->] | (i & d' & a & -> & Hi & Ha & Hin & ->)].
           ++ exists 0%nat, d, a0. rewrite Nat.add_0_r. repeat split; auto.
              cbn [take seen_after]. unfold set_mem in Hmem.
              apply bool_decide_eq_true in Hmem. exact Hmem.
           ++ exists (S i), d', a. cbn [take seen_after]. rewrite Ha0.
              repeat split; auto; lia.
        -- intros ([|i] & d' & a & -> & Hi & Ha & Hin & ->).
           ++ left. injection Hi as <-. rewrite Ha0 in Ha. injection Ha as <-.
              rewrite Nat.add_0_r. reflexivity.
           ++ right. exists i, d', a. cbn [take seen_after] in Hin. rewrite Ha0 in Hin.
              repeat split; auto; lia.
      * cbn [map fst]. constructor; [lia|].
        eapply Forall_impl; [exact Hge|]. cbn. intros; lia.
      * cbn [map fst]. constructor; [exact Hsorted|].
        eapply Forall_impl; [exact Hge|]. cbn. intros; lia.
    + destruct (IH (S index) (set_add ids a0) details)
        as (added & Hrun & Hchar & Hge & Hsorted).
      exists added. rewrite Hrun. split; [reflexivity|]. split; [|split].
      * intros n why. rewrite Hchar. split.
        -- intros (i & d' & a & -> & Hi & Ha & Hin & ->).
           exists (S i), d', a. cbn [take seen_after]. rewrite Ha0.
           repeat split; auto; lia.
        -- intros ([|i] & d' & a & -> & Hi & Ha & Hin & ->).
           ++ injection Hi as <-. rewrite Ha0 in Ha. injection Ha as <-.
              cbn [take seen_after] in Hin. unfold set_mem in Hmem.
              apply bool_decide_eq_false in Hmem. contradiction.
           ++ exists i, d', a. cbn [take seen_after] in Hin. rewrite Ha0 in Hin.
              repeat split; auto; lia.
      * eapply Forall_impl; [exact Hge|]. cbn. intros; lia.
      * exact Hsorted.
Qed.

(** On a batch of records that are each valid on their own, the batch loop
    runs to its end and reports exactly the records whose product_id equals
    (Python ==) the product_id of an earlier record: one entry per such
    record, in batch order, with the record's place counted from 1 and the
    reason "Duplicate product_id: <id>". *)
Theorem batch_reports_duplicate_ids (batch : list record) :
  Forall valid_alone batch ->
  exists details ids',
    run_batch (map VDict batch) = (Ret details, ids') /\
    (forall n why,
       (n, why) ∈ details <->
       exists (i : nat) d a,
         n = S i /\ batch !! i = Some d /\
         as_atom (get d "product_id") = Some a /\
         seen_earlier batch i d /\
         why = Text ("Duplicate product_id: " ++ atom_str a)) /\
    StronglySorted lt (map fst details).
Proof.
  intros Hall.
  destruct (batch_loop_valid_alone batch Hall 1%nat ∅ [])
    as (added & Hrun & Hchar & _ & Hsorted).
  exists added, (seen_after batch ∅). split; [exact Hrun|]. split; [|exact Hsorted].
  pose proof (valid_alone_hashable batch Hall) as Hhash.
  intros n why. rewrite Hchar. split.
  - intros (i & d & a & -> & Hi & Ha & Hin & ->). exists i, d, a.
    repeat split; auto. apply (seen_earlier_spec batch i d a Hhash Ha). exact Hin.
  - intros (i & d & a & -> & Hi & Ha & Hin & ->). exists i, d, a.
    repeat split; auto. apply (seen_earlier_spec batch i d a Hhash Ha). exact Hin.
Qed.

Lemma three_valid_alone : Forall valid_alone three_valid.
Proof.
  repeat constructor.
  - exists (Text "Product data is valid"), {[ KNum 1 ]}. vm_compute. f_equal.
  - exists (Text "Product data is valid"), {[ KNum 2 ]}. vm_compute. f_equal.
  - exists (Text "Product data is valid"), {[ KNum 1 ]}. vm_compute. f_equal.
Defined.

Lemma batch_reports_duplicate_ids_three :
  Forall valid_alone three_valid /\
  exists details ids',
    run_batch (map VDict three_valid) = (Ret details, ids') /\
    (3%nat, Text "Duplicate product_id: True") ∈ details.
Proof.
  split; [exact three_valid_alone|].
  destruct (batch_reports_duplicate_ids three_valid three_valid_alone)
    as (details & ids' & Hrun & Hchar & _).
  exists details, ids'. split; [exact Hrun|]. apply Hchar.
  exists 2%nat, (sample (VBool true) [VStr "http://img/3.jpg"]), (ABool true).
  repeat split. exists 0%nat, (sample (VInt 1) [VStr "http://img/1.jpg"]).
  repeat split. lia.
Defined.

(** ** The batch loop in general *)

Lemma batch_loop_app (l1 l2 : list value) :
  forall index product_ids details,
    batch_loop index (l1 ++ l2) product_ids details =
      match batch_loop index l1 product_ids details with
      | (Ret details1, ids1) => batch_loop (index + length l1) l2 ids1 details1
      | (Raise e, ids1) => (Raise e, ids1)
      end.
Proof.
  induction l1 as [|json l1 IH]; intros index ids details.
  - cbn [app batch_loop length]. rewrite Nat.add_0_r. reflexivity.
  - cbn [app batch_loop length].
    destruct (validate_pdp_data json ids) as [[[b|ok why]|e] ids1];
      run_bind; cbn [unpack]; try reflexivity.
    rewrite IH. replace (S index + length l1)%nat with (index + S (length l1))%nat by lia.
    reflexivity.
Qed.

(** Running the loop over a batch is running it over a first part and then
    over the rest, from the set, the place and the report the first part left;
    if the first part ends with an exception, so does the whole. *)
Theorem run_batch_app (l1 l2 : list value) :
  run_batch (l1 ++ l2) =
    match run_batch l1 with
    | (Ret details1, ids1) => batch_loop (S (length l1)) l2 ids1 details1
    | (Raise e, ids1) => (Raise e, ids1)
    end.
Proof. unfold run_batch. apply batch_loop_app. Qed.

Lemma batch_loop_report (pdp_list : list value) :
  forall index product_ids details details' ids',
    batch_loop index pdp_list product_ids details = (Ret details', ids') ->
    exists added,
      details' = details ++ added /\
      (forall n why,
         (n, why) ∈ added <->
         exists (i : nat) json ids'',
           n = (index + i)%nat /\ pdp_list !! i = Some json /\
           validate_pdp_data json
             (snd (batch_loop index (take i pdp_list) product_ids details))
             = (Ret (RPair false why), ids'')) /\
      Forall (le index) (map fst added) /\
      StronglySorted lt (map fst added) /\
      (length added <= length pdp_list)%nat.
Proof.
  induction pdp_list as [|json rest IH]; intros index ids details details' ids' H.
  - cbn [batch_loop] in H. injection H as <- <-. exists []. rewrite app_nil_r.
    split; [reflexivity|]. split; [|split; [|split]]; [| constructor | constructor | cbn; lia].
    intros n why. split.
    + intros Hin. apply elem_of_nil in Hin. contradiction.
    + intros (i & j & ids'' & _ & Hi & _). rewrite lookup_nil in Hi. discriminate.
  - cbn [batch_loop] in H.
    destruct (validate_pdp_data json ids) as [[[b|ok why0]|e] ids1] eqn:E;
      revert H; run_bind; cbn [unpack]; try discriminate; intros H.
    assert (Hstate : forall i,
      snd (batch_loop index (take (S i) (json :: rest)) ids details) =
      snd (batch_loop (S index) (take i rest) ids1
             (if negb ok then details ++ [(index, why0)] else details))).
    { intros i. cbn [take batch_loop]. rewrite E. run_bind. cbn [unpack]. reflexivity. }
    destruct (IH _ _ _ _ _ H) as (added & -> & Hchar & Hge & Hsorted & Hlen).
    destruct ok; cbn [negb] in *.
    + exists added. split; [reflexivity|]. split; [|split; [|split]].
      * intros n why. rewrite Hchar. split.
        -- intros (i & j & ids'' & -> & Hi & Hv). exists (S i), j, ids''.
           rewrite Hstate. repeat split; auto; lia.
        -- intros ([|i] & j & ids'' & -> & Hi & Hv).
           ++ injection Hi as <-. cbn [take batch_loop snd] in Hv.
              rewrite E in Hv. discriminate Hv.
           ++ exists i, j, ids''. rewrite Hstate in Hv. repeat split; auto; lia.
      * eapply Forall_impl; [exact Hge|]. cbn. intros; lia.
      * exact Hsorted.
      * cbn [length]. lia.
    + exists ((index, why0) :: added). rewrite <- app_assoc.
      split; [reflexivity|]. split; [|split; [|split]].
      * intros n why. rewrite elem_of_cons, Hchar. split.
        -- intros [[= -> ->] | (i & j & ids'' & -> & Hi & Hv)].
           ++ exists 0%nat, json, ids1. rewrite Nat.add_0_r. repeat split; auto.
           ++ exists (S i), j, ids''. rewrite Hstate. repeat split; auto; lia.
        -- intros ([|i] & j & ids'' & -> & Hi & Hv).
           ++ left. injection Hi as <-. cbn [take batch_loop snd] in Hv.
              rewrite E in Hv. injection Hv as <- _. rewrite Nat.add_0_r. reflexivity.
           ++ right. exists i, j, ids''. rewrite Hstate in Hv. repeat split; auto; lia.
      * cbn [map fst]. constructor; [lia|].
        eapply Forall_impl; [exact Hge|]. cbn. intros; lia.
      * cbn [map fst]. constructor; [exact Hsorted|].
        eapply Forall_impl; [exact Hge|]. cbn. intros; lia.
      * cbn [length]. lia.
Qed.

(** When the batch loop runs to its end, its report holds one entry for each
    record that the orchestrator rejected on the set left by the records
    before it, and no other entry: the entry carries the record's place in
    the batch, counted from 1, and the reason of the rejection; the entries
    are in batch order. *)
Theorem batch_report_exact (pdp_list : list value)
    (details : list (nat * reason)) (ids' : pyset) :
  run_batch pdp_list = (Ret details, ids') ->
  (forall n why,
     (n, why) ∈ details <->
     exists (i : nat) json ids'',
       n = S i /\ pdp_list !! i = Some json /\
       validate_pdp_data json (snd (run_batch (take i pdp_list)))
         = (Ret (RPair false why), ids'')) /\
  StronglySorted lt (map fst details) /\
  (length details <= length pdp_list)%nat.
Proof.
  intros H. unfold run_batch in H.
  destruct (batch_loop_report _ _ _ _ _ _ H) as (added & -> & Hchar & _ & Hsorted & Hlen).
  cbn [app]. auto.
Qed.

Lemma batch_report_exact_121 :
  run_batch batch_121
    = (Ret [(3%nat, Text "Duplicate product_id: 1")], snd (run_batch batch_121)) /\
  StronglySorted lt (map fst [(3%nat, Text "Duplicate product_id: 1")]) /\
  (length [(3%nat, Text "Duplicate product_id: 1")] <= length batch_121)%nat.
Proof.
  assert (H : run_batch batch_121
    = (Ret [(3%nat, Text "Duplicate product_id: 1")], snd (run_batch batch_121))).
  { apply injective_projections; [vm_compute; reflexivity | reflexivity]. }
  split; [exact H|]. exact (proj2 (batch_report_exact _ _ _ H)).
Defined.

(** ** The image check when images is not a list *)

Lemma no_char_is_http (s : string) : existsb is_http_string (chars s) = false.
Proof.
  induction s as [|c s IH]; [reflexivity|].
  cbn [chars existsb]. rewrite IH, orb_false_r. cbn [is_http_string String.prefix].
  destruct (ascii_dec "h" c); reflexivity.
Qed.

(** With an image present, the image check treats an images value that is
    not a list as Python iterates it: a string is rejected with the images
    reason whatever it holds, also when it is itself a URL, since its
    characters are looked at one by one; a dictionary passes exactly when one
    of its keys starts with "http"; zero and False are rejected with the
    images reason, and any other number and True raise TypeError. *)
Theorem validate_image_data_not_a_list (d : record) :
  get d "image" <> VNone ->
  (forall s, get d "images" = VStr s ->
     validate_image_data (VDict d)
       = Ret (RPair false (Text "Images list should contain at least one URL"))) /\
  (forall e, get d "images" = VDict e ->
     validate_image_data (VDict d)
       = Ret (if existsb (String.prefix "http") (dict_keys e)
              then RPair true (Text "")
              else RPair false (Text "Images list should contain at least one URL"))) /\
  (forall n, get d "images" = VInt n ->
     validate_image_data (VDict d)
       = if (n =? 0)%Z
         then Ret (RPair false (Text "Images list should contain at least one URL"))
         else Raise TypeError) /\
  (forall b, get d "images" = VBool b ->
     validate_image_data (VDict d)
       = if b then Raise TypeError
         else Ret (RPair false (Text "Images list should contain at least one URL"))).
Proof.
  intros Himage. unfold validate_image_data. cbn [dot_get]. run_bind.
  assert (is_none (get d "image") = false) as ->
    by (destruct (get d "image"); [contradiction | reflexivity ..]).
  repeat apply conj.
  - intros s ->. cbn [truthy py_iter]. destruct (String.eqb s ""); cbn [negb]; [reflexivity|].
    run_bind. rewrite no_char_is_http. reflexivity.
  - intros e ->. cbn [truthy py_iter]. destruct e as [|kv e]; [reflexivity|].
    cbn [negb]. run_bind.
    assert (Hkeys : forall keys, existsb is_http_string (map VStr keys)
                                 = existsb (String.prefix "http") keys).
    { induction keys as [|k keys IH]; [reflexivity|]. cbn [map existsb]. rewrite IH.
      reflexivity. }
    rewrite Hkeys. destruct (existsb (String.prefix "http") (dict_keys (kv :: e)));
      reflexivity.
  - intros n ->. cbn [truthy py_iter]. destruct (n =? 0)%Z; reflexivity.
  - intros b ->. cbn [truthy py_iter]. destruct b; reflexivity.
Qed.

Lemma validate_image_data_bare_url :
  get bare_url_images "image" <> VNone /\
  validate_image_data (VDict bare_url_images)
    = Ret (RPair false (Text "Images list should contain at least one URL")).
Proof.
  assert (H : get bare_url_images "image" <> VNone) by discriminate.
  split; [exact H|].
  exact (proj1 (validate_image_data_not_a_list bare_url_images H)
           "http://img/1.jpg" eq_refl).
Defined.

(** ** Fields outside the schema *)

Section SchemaFieldsOnly.
Variables d d' : record.
Hypothesis Hsame : forall key, In key schema_keys -> dict_get d key = dict_get d' key.

Lemma same_get (key : string) : In key schema_keys -> get d key = get d' key.
Proof. intros H. unfold get. rewrite (Hsame key H). reflexivity. Qed.

Lemma same_has_key (key : string) : In key schema_keys -> has_key d key = has_key d' key.
Proof. intros H. unfold has_key. rewrite (Hsame key H). reflexivity. Qed.

Lemma same_presence :
  is_valid_product_data (VDict d) = is_valid_product_data (VDict d').
Proof.
  cbn [is_valid_product_data]. rewrite !all_keys_present_forallb.
  unfold required_keys. cbn [forallb].
  rewrite !(same_has_key _) by (simpl; tauto). reflexivity.
Qed.

Lemma same_violations (items : list (string * classinfo)) :
  Forall (fun item : string * classinfo => In (fst item) schema_keys) items ->
  map (violation_message d) (List.filter (violates d) items) =
  map (violation_message d') (List.filter (violates d') items).
Proof.
  induction 1 as [|item items Hk _ IH]; [reflexivity|].
  cbn [List.filter].
  assert (violates d item = violates d' item) as ->.
  { unfold violates, absent, mistyped.
    rewrite (same_has_key _ Hk), (same_get _ Hk). reflexivity. }
  destruct (violates d' item); cbn [map]; [|exact IH].
  rewrite IH. f_equal. unfold violation_message, absent.
  rewrite (same_has_key _ Hk), (same_get _ Hk). reflexivity.
Qed.

Lemma same_schema :
  validate_product_data_schema (VDict d) = validate_product_data_schema (VDict d').
Proof.
  unfold validate_product_data_schema. rewrite !schema_loop_dict.
  rewrite same_violations; [reflexivity|].
  apply Forall_forall. intros item Hin. unfold schema_keys.
  apply in_map. apply list_elem_of_In. exact Hin.
Qed.

Lemma same_validate_pdp_data (product_ids : pyset) :
  validate_pdp_data (VDict d) product_ids = validate_pdp_data (VDict d') product_ids.
Proof.
  unfold validate_pdp_data. rewrite same_presence, same_schema.
  unfold validate_image_data, validate_url_format, validate_product_id_uniqueness,
    validate_duplicate_images.
  cbn [dot_get]. rewrite !(same_get _) by (simpl; tauto). reflexivity.
Qed.
End SchemaFieldsOnly.

(** The orchestrator reads a record only through the sixteen fields the
    schema names: two records that agree on these fields get the same answer
    and leave the same set, whatever other fields they carry and in whatever
    order their fields are stored. *)
Theorem only_schema_fields_matter (d d' : record) (product_ids : pyset) :
  (forall key, In key schema_keys -> dict_get d key = dict_get d' key) ->
  validate_pdp_data (VDict d) product_ids = validate_pdp_data (VDict d') product_ids.
Proof. intros H. apply same_validate_pdp_data. exact H. Qed.

Lemma only_schema_fields_matter_overpriced :
  (forall key, In key schema_keys ->
     dict_get overpriced key = dict_get (sample (VInt 7) [VStr "http://img/7.jpg"]) key) /\
  validate_pdp_data (VDict overpriced) ∅
    = validate_pdp_data (VDict (sample (VInt 7) [VStr "http://img/7.jpg"])) ∅.
Proof.
  assert (H : forall key, In key schema_keys ->
     dict_get overpriced key = dict_get (sample (VInt 7) [VStr "http://img/7.jpg"]) key).
  { intros key Hin. simpl in Hin.
    repeat (destruct Hin as [<- | Hin]; [reflexivity|]). contradiction. }
  split; [exact H|]. exact (only_schema_fields_matter _ _ ∅ H).
Defined.
